(** * MCPManager: the tool-invocation client of the admin front end

    A shallow embedding of [admin-frontend/src/components/MCPManager.tsx]:
    the React component that opens a WebSocket to the MCP server, sends
    [initialize] and [tools/list], and calls a tool on demand.

    The component state (the [useState] cells, the socket object and the
    closure variable [isOpen]) is an explicit record; every handler of the
    component is a computation in a small state-and-exception monad, so that
    [try]/[catch] and an exception that escapes a handler are both visible.
    Values that come from the wire are untyped JSON, as in the source, where
    [JSON.parse] returns [any]. *)

From Stdlib Require Import String List Bool Arith Lia ZArith DecimalString.
From Stdlib Require Import RelationClasses Ascii Permutation.
Import ListNotations.
Local Open Scope string_scope.

Set Implicit Arguments.
Set Warnings "-register-all".

(** ** JavaScript values *)

(** The exceptions the component can meet.  [SyntaxError] is what
    [JSON.parse] throws; the three [TypeError]s are a property read on
    [null], a call of something that is not a function, and an object that
    has no primitive value; [InvalidStateError] is [WebSocket.send] on a
    socket that is still connecting. *)
Inductive js_exn : Type :=
| SyntaxError (detail : string)
| TypeError_null_read (prop : string)
| TypeError_not_callable (callee : string)
| TypeError_no_primitive
| InvalidStateError.

(** What the JavaScript engine decides and the component does not: the
    number type with its truthiness and printing, and the text of
    [String(e)] for an exception [e]. *)
Class Runtime : Type := {
  number : Type;
  number_truthy : number -> bool;
  number_to_string : number -> string;
  String_of_exn : js_exn -> string
}.

(** A value produced by [JSON.parse].  An object is the list of its own
    properties, each key once.  [undefined] is [None] of [option json]. *)
Inductive json `{Runtime} : Type :=
| JNull
| JBool (b : bool)
| JNum (n : number)
| JStr (s : string)
| JArr (items : list json)
| JObj (fields : list (string * json)).

(** Outcome of an expression or statement: a value, or a thrown exception. *)
Inductive completion (A : Type) : Type :=
| Normal (a : A)
| Throw (e : js_exn).
Arguments Normal {A} a.
Arguments Throw {A} e.

Definition cbind {A B} (c : completion A) (k : A -> completion B) : completion B :=
  match c with
  | Normal a => k a
  | Throw e => Throw e
  end.

Declare Scope js_scope.
Delimit Scope js_scope with js.

Section Values.
Context `{RT : Runtime}.

Fixpoint lookup (k : string) (fs : list (string * json)) : option json :=
  match fs with
  | [] => None
  | (k', v) :: rest => if String.eqb k k' then Some v else lookup k rest
  end.

(** The field [k] of a list of fields set to [v]: written in place when
    the field is there, put last when it is not. *)
Fixpoint obj_set (k : string) (v : json) (fs : list (string * json))
  : list (string * json) :=
  match fs with
  | [] => [(k, v)]
  | (k', v') :: rest =>
      if String.eqb k k' then (k', v) :: rest else (k', v') :: obj_set k v rest
  end.

(** The decimal digit a character is. *)
Definition digit_of (c : Ascii.ascii) : option N :=
  let n := Ascii.N_of_ascii c in
  if N.leb 48 n && N.leb n 57 then Some (n - 48)%N else None.

Fixpoint digits_value (acc : N) (k : string) : option N :=
  match k with
  | EmptyString => Some acc
  | String c rest =>
      match digit_of c with
      | Some d => digits_value (10 * acc + d)%N rest
      | None => None
      end
  end.

(** The array index a property key is, if it is one: the key is the
    decimal writing, without a leading zero, of an integer from 0 to
    2^32 - 2.  JavaScript lists such keys before all others, in
    ascending order. *)
Definition array_index (k : string) : option N :=
  match k with
  | EmptyString => None
  | String c rest =>
      if Ascii.eqb c "0"%char
      then (if String.eqb rest "" then Some 0%N else None)
      else match digits_value 0 k with
           | Some n => if N.leb n 4294967294 then Some n else None
           | None => None
           end
  end.

(** A new property under the array index [n] takes its place among the
    array indices that lead the object. *)
Fixpoint insert_index (n : N) (k : string) (v : json) (fs : list (string * json))
  : list (string * json) :=
  match fs with
  | [] => [(k, v)]
  | (k', v') :: rest =>
      match array_index k' with
      | Some m =>
          if N.ltb n m then (k, v) :: (k', v') :: rest
          else (k', v') :: insert_index n k v rest
      | None => (k, v) :: (k', v') :: rest
      end
  end.

(** [{...prev, [key]: value}], on the own properties of [prev] in their
    order: an existing key keeps its place; a new key that is an array
    index goes among the array indices; any other new key comes last. *)
Definition object_with (k : string) (v : json) (fs : list (string * json))
  : list (string * json) :=
  match lookup k fs with
  | Some _ => obj_set k v fs
  | None =>
      match array_index k with
      | Some n => insert_index n k v fs
      | None => (fs ++ [(k, v)])%list
      end
  end.

(** ToBoolean. *)
Definition truthy (v : json) : bool :=
  match v with
  | JNull => false
  | JBool b => b
  | JNum n => number_truthy n
  | JStr s => negb (String.eqb s "")
  | JArr _ => true
  | JObj _ => true
  end.

(** The operand of [if (e)] when it is truthy, [None] when it is falsy
    ([undefined] included). *)
Definition as_truthy (v : option json) : option json :=
  match v with
  | Some j => if truthy j then Some j else None
  | None => None
  end.

(** The property [k] of [v], own or inherited, without the [null] check.
    The component reads only [result], [tools], [content], [text],
    [error], [message], [data] and [name]; none of them is inherited by a
    string, a number, a boolean, an array or a plain object. *)
Definition own_prop (v : json) (k : string) : option json :=
  match v with
  | JObj fs => lookup k fs
  | _ => None
  end.

(** [v.k]: a read on [null] or [undefined] throws. *)
Definition member (v : option json) (k : string) : completion (option json) :=
  match v with
  | None => Throw (TypeError_null_read k)
  | Some JNull => Throw (TypeError_null_read k)
  | Some j => Normal (own_prop j k)
  end.

(** [a && a.k], the value of the conjunction. *)
Definition and_member (a : option json) (k : string) : completion (option json) :=
  match as_truthy a with
  | Some _ => member a k
  | None => Normal a
  end.

(** ToString of a JSON value, which is also what [+] with a string does
    to it.  An array prints its elements joined by commas, [null]
    elements as the empty string.  A plain object prints as
    [[object Object]], unless it has an own property [toString]: a JSON
    value is never callable, the inherited [valueOf] returns the object
    itself, and the conversion throws. *)
Fixpoint ToString (v : json) : completion string :=
  match v with
  | JNull => Normal "null"
  | JBool true => Normal "true"
  | JBool false => Normal "false"
  | JNum n => Normal (number_to_string n)
  | JStr s => Normal s
  | JArr items =>
      (fix commas (l : list json) : completion string :=
         match l with
         | [] => Normal ""
         | x :: rest =>
             cbind (match x with JNull => Normal "" | _ => ToString x end)
               (fun sx =>
                  match rest with
                  | [] => Normal sx
                  | _ => cbind (commas rest) (fun sr => Normal (sx ++ "," ++ sr))
                  end)
         end) items
  | JObj fs =>
      match lookup "toString" fs with
      | Some _ => Throw TypeError_no_primitive
      | None => Normal "[object Object]"
      end
  end.

Definition ToString_opt (v : option json) : completion string :=
  match v with
  | None => Normal "undefined"
  | Some j => ToString j
  end.

(** [Array.prototype.join]: [undefined] and [null] print as nothing. *)
Definition join_item (v : option json) : completion string :=
  match v with
  | None => Normal ""
  | Some JNull => Normal ""
  | Some j => ToString j
  end.

Fixpoint join (sep : string) (l : list (option json)) : completion string :=
  match l with
  | [] => Normal ""
  | x :: rest =>
      cbind (join_item x)
        (fun sx =>
           match rest with
           | [] => Normal sx
           | _ => cbind (join sep rest) (fun sr => Normal (sx ++ sep ++ sr))
           end)
  end.

(** [l.map(f)] for a callback that may throw. *)
Fixpoint map_throwing {A B} (f : A -> completion B) (l : list A)
  : completion (list B) :=
  match l with
  | [] => Normal []
  | x :: rest =>
      cbind (f x) (fun y => cbind (map_throwing f rest) (fun ys => Normal (y :: ys)))
  end.

(** [v.map(f)]: only an array has a callable [map]. *)
Definition array_map {B} (callee : string) (v : json)
  (f : json -> completion B) : completion (list B) :=
  match v with
  | JArr items => map_throwing f items
  | _ => Throw (TypeError_not_callable callee)
  end.

(** [tools.find(t => t.name === selectedTool)]. *)
Definition name_is (selected : string) (t : json) : completion bool :=
  cbind (member (Some t) "name")
    (fun n => match n with
              | Some (JStr s) => Normal (String.eqb s selected)
              | _ => Normal false
              end).

Fixpoint find_throwing (p : json -> completion bool) (l : list json)
  : completion (option json) :=
  match l with
  | [] => Normal None
  | t :: rest =>
      cbind (p t) (fun b => if b then Normal (Some t) else find_throwing p rest)
  end.

Definition array_find (callee : string) (v : json)
  (p : json -> completion bool) : completion (option json) :=
  match v with
  | JArr items => find_throwing p items
  | _ => Throw (TypeError_not_callable callee)
  end.

End Values.

(** ** Component state *)

(** The three values of the [status] cell. *)
Inductive Status : Type := checking | online | offline.

(** The socket object: [readyState] (0 connecting, 1 open, 2 closing,
    3 closed) and the frames accepted for transmission, oldest first.  A
    frame is recorded as the value handed to [JSON.stringify]. *)
Record WebSocket `{Runtime} : Type := mkSocket {
  readyState : nat;
  sent : list json
}.

(** The [ws] cell holds [null] or a reference to the one socket the effect
    created; the socket itself lives in [socket], so that the cell and the
    closure variable of the effect denote the same object. *)
Inductive socket_ref : Type := TheSocket.

Record state `{Runtime} : Type := mkState {
  status : Status;
  tools : json;
  selectedTool : string;
  toolArgs : list (string * json);
  response : string;
  error : string;
  loading : bool;
  ws : option socket_ref;
  socket : WebSocket;
  isOpen : bool;
  timers : nat
}.

Section Cells.
Context `{RT : Runtime}.

Definition with_status (v : Status) (s : state) : state :=
  mkState v (tools s) (selectedTool s) (toolArgs s) (response s) (error s)
    (loading s) (ws s) (socket s) (isOpen s) (timers s).
Definition with_tools (v : json) (s : state) : state :=
  mkState (status s) v (selectedTool s) (toolArgs s) (response s) (error s)
    (loading s) (ws s) (socket s) (isOpen s) (timers s).
Definition with_selectedTool (v : string) (s : state) : state :=
  mkState (status s) (tools s) v (toolArgs s) (response s) (error s)
    (loading s) (ws s) (socket s) (isOpen s) (timers s).
Definition with_toolArgs (v : list (string * json)) (s : state) : state :=
  mkState (status s) (tools s) (selectedTool s) v (response s) (error s)
    (loading s) (ws s) (socket s) (isOpen s) (timers s).
Definition with_response (v : string) (s : state) : state :=
  mkState (status s) (tools s) (selectedTool s) (toolArgs s) v (error s)
    (loading s) (ws s) (socket s) (isOpen s) (timers s).
Definition with_error (v : string) (s : state) : state :=
  mkState (status s) (tools s) (selectedTool s) (toolArgs s) (response s) v
    (loading s) (ws s) (socket s) (isOpen s) (timers s).
Definition with_loading (v : bool) (s : state) : state :=
  mkState (status s) (tools s) (selectedTool s) (toolArgs s) (response s)
    (error s) v (ws s) (socket s) (isOpen s) (timers s).
Definition with_socket (v : WebSocket) (s : state) : state :=
  mkState (status s) (tools s) (selectedTool s) (toolArgs s) (response s)
    (error s) (loading s) (ws s) v (isOpen s) (timers s).
Definition with_isOpen (v : bool) (s : state) : state :=
  mkState (status s) (tools s) (selectedTool s) (toolArgs s) (response s)
    (error s) (loading s) (ws s) (socket s) v (timers s).
Definition with_timers (v : nat) (s : state) : state :=
  mkState (status s) (tools s) (selectedTool s) (toolArgs s) (response s)
    (error s) (loading s) (ws s) (socket s) (isOpen s) v.

(** The state once the mount effect has run: the cells at their
    [useState] defaults, [status] set to [checking], a fresh socket that
    is still connecting, and [ws] pointing to it. *)
Definition mounted : state :=
  mkState checking (JArr []) "" [] "" "" false (Some TheSocket)
    (mkSocket 0 []) false 0.

(** A handler: it updates the state and either returns or throws.  The
    updates made before a throw are kept, as React keeps the state
    updates queued by a handler that throws afterwards. *)
Definition M (A : Type) : Type := state -> completion A * state.

Definition ret {A} (a : A) : M A := fun s => (Normal a, s).

Definition bind {A B} (m : M A) (k : A -> M B) : M B :=
  fun s =>
    match m s with
    | (Normal a, s') => k a s'
    | (Throw e, s') => (Throw e, s')
    end.

Definition lift {A} (c : completion A) : M A := fun s => (c, s).

Definition gets {A} (f : state -> A) : M A := fun s => (Normal (f s), s).

Definition modify (f : state -> state) : M unit := fun s => (Normal tt, f s).

(** [try { body } catch (e) { handler e }]. *)
Definition try_catch {A} (body : M A) (handler : js_exn -> M A) : M A :=
  fun s =>
    match body s with
    | (Normal a, s') => (Normal a, s')
    | (Throw e, s') => handler e s'
    end.

End Cells.

Notation "x <- m ;; k" := (bind m (fun x => k))
  (at level 61, m at next level, right associativity) : js_scope.
Notation "m ;; k" := (bind m (fun _ => k))
  (at level 61, right associativity) : js_scope.

(** ** The handlers of the component *)

(** [event.data] as [JSON.parse] sees it: the value it returns, or the
    [SyntaxError] it throws (a binary frame is stringified first and fails
    to parse too). *)
Inductive frame_text `{Runtime} : Type :=
| Parses (data : json)
| Garbled (detail : string).

Section Handlers.
Context `{RT : Runtime}.
Local Open Scope js_scope.

Definition setStatus (v : Status) : M unit := modify (with_status v).
Definition setTools (v : json) : M unit := modify (with_tools v).
Definition setSelectedTool (v : string) : M unit := modify (with_selectedTool v).
Definition setToolArgs (f : list (string * json) -> list (string * json)) : M unit :=
  modify (fun s => with_toolArgs (f (toolArgs s)) s).
Definition setResponse (v : string) : M unit := modify (with_response v).
Definition setError (v : string) : M unit := modify (with_error v).
Definition setLoading (v : bool) : M unit := modify (with_loading v).

(** [socket.send(JSON.stringify(frame))]: an open socket takes the frame;
    a connecting socket throws; a closing or closed socket drops it. *)
Definition socket_send (frame : json) : M unit :=
  fun s =>
    match readyState (socket s) with
    | 0 => (Throw InvalidStateError, s)
    | 1 => (Normal tt,
            with_socket (mkSocket 1 (sent (socket s) ++ [frame])) s)
    | _ => (Normal tt, s)
    end.

(** [setTimeout(callback, 200)]: one more pending timer. *)
Definition setTimeout_200 : M unit :=
  modify (fun s => with_timers (S (timers s)) s).

Definition JSON_parse (text : frame_text) : completion json :=
  match text with
  | Parses data => Normal data
  | Garbled detail => Throw (SyntaxError detail)
  end.

Definition initialize_frame : json :=
  JObj [("jsonrpc", JStr "2.0");
        ("id", JStr "init");
        ("method", JStr "initialize");
        ("params",
          JObj [("protocolVersion", JStr "2024-11-05");
                ("capabilities", JObj [("tools", JObj [])]);
                ("clientInfo",
                  JObj [("name", JStr "AdminFrontend");
                        ("version", JStr "1.0.0")])])].

Definition tools_list_frame : json :=
  JObj [("jsonrpc", JStr "2.0");
        ("id", JStr "list");
        ("method", JStr "tools/list");
        ("params", JObj [])].

Definition tools_call_frame (selected : string) (args : list (string * json)) : json :=
  JObj [("jsonrpc", JStr "2.0");
        ("id", JStr ("call_" ++ selected));
        ("method", JStr "tools/call");
        ("params",
          JObj [("name", JStr selected);
                ("arguments", JObj args)])].

(** [socket.onopen]. *)
Definition socket_onopen : M unit :=
  modify (with_isOpen true) ;;
  setStatus online ;;
  socket_send initialize_frame ;;
  setTimeout_200.

(** The callback given to [setTimeout] in [socket.onopen]. *)
Definition list_tools_later : M unit :=
  socket_send tools_list_frame.

(** [socket.onerror]. *)
Definition socket_onerror : M unit :=
  setStatus offline ;;
  setError "Impossible de se connecter au serveur MCP.".

(** [socket.onclose]. *)
Definition socket_onclose : M unit :=
  setStatus offline ;;
  opened <- gets isOpen ;;
  if opened then setError "Connexion MCP fermée." else ret tt.

(** [data.result.content.map((c: any) => c.text).join('\n')]. *)
Definition content_text (content : json) : completion string :=
  cbind (array_map "data.result.content.map" content
           (fun c => member (Some c) "text"))
    (join (String (Ascii.ascii_of_nat 10) "")).

(** [data.error.message + (data.error.data ? ': ' + data.error.data : '')]:
    both operands are evaluated, the right one down to its string, before
    the left one is converted. *)
Definition error_text (err : json) : completion string :=
  cbind (member (Some err) "message") (fun message =>
  cbind (member (Some err) "data") (fun data =>
  cbind (match as_truthy data with
         | Some d => cbind (ToString d) (fun sd => Normal (": " ++ sd))
         | None => Normal ""
         end) (fun detail =>
  cbind (ToString_opt message) (fun sm => Normal (sm ++ detail))))).

(** The body of the [try] block of [socket.onmessage]. *)
Definition onmessage_try (text : frame_text) : M unit :=
  data <- lift (JSON_parse text) ;;
  result <- lift (member (Some data) "result") ;;
  listed <- lift (and_member result "tools") ;;
  match as_truthy listed with
  | Some new_tools => setTools new_tools
  | None =>
      content <- lift (and_member result "content") ;;
      match as_truthy content with
      | Some c =>
          text <- lift (content_text c) ;;
          setResponse text ;;
          setLoading false
      | None =>
          err <- lift (member (Some data) "error") ;;
          match as_truthy err with
          | Some e =>
              text <- lift (error_text e) ;;
              setError text ;;
              setLoading false
          | None => ret tt
          end
      end
  end.

(** [socket.onmessage]. *)
Definition socket_onmessage (text : frame_text) : M unit :=
  try_catch (onmessage_try text)
    (fun e =>
       setError ("Erreur de parsing MCP: " ++ String_of_exn e) ;;
       setLoading false).

(** [handleToolChange]. *)
Definition handleToolChange (value : string) : M unit :=
  setSelectedTool value ;;
  setToolArgs (fun _ => []) ;;
  setResponse "" ;;
  setError "".

(** [handleArgChange]. *)
Definition handleArgChange (key : string) (value : json) : M unit :=
  setToolArgs (object_with key value).

(** [!ws || ws.readyState !== 1]. *)
Definition not_connected (s : state) : bool :=
  match ws s with
  | None => true
  | Some TheSocket => negb (Nat.eqb (readyState (socket s)) 1)
  end.

(** [handleCallTool]. *)
Definition handleCallTool : M unit :=
  setLoading true ;;
  setResponse "" ;;
  setError "" ;;
  down <- gets not_connected ;;
  if down then
    setError "WebSocket MCP non connecté." ;;
    setLoading false
  else
    known <- gets tools ;;
    selected <- gets selectedTool ;;
    tool <- lift (array_find "tools.find" known (name_is selected)) ;;
    match as_truthy tool with
    | None =>
        setError "Outil non trouvé." ;;
        setLoading false
    | Some _ =>
        args <- gets toolArgs ;;
        socket_send (tools_call_frame selected args)
    end.

End Handlers.

(** ** The component in its environment *)

(** What can happen to a mounted component: the browser reports on the
    socket, the 200 ms timer fires, or the user acts on the page (a click
    on an item of the tool list, a keystroke in a field of the form, a
    click on the call button).  The component stays mounted: the cleanup of
    the effect, which closes the socket, is not part of the model.
    [handleToolChange] is bound to no element of the page, so no event
    runs it. *)
Inductive event `{Runtime} : Type :=
| TransportOpens
| TransportFails
| TransportCloses
| FrameArrives (text : frame_text)
| TimerFires
| ClicksTool (name : string)
| TypesArg (key value : string)
| ClicksCall.

Section Environment.
Context `{RT : Runtime}.

Definition set_readyState (n : nat) (s : state) : state :=
  with_socket (mkSocket n (sent (socket s))) s.

(** The state a handler leaves, whether it returned or threw. *)
Definition after (h : M unit) (s : state) : state := snd (h s).

(** A list item of the tool list carries this name, a string.  The page
    shows an item for every element of [tools] and a click selects whatever
    its [name] is; the model has the click for the items whose [name] is a
    string, the type the [selectedTool] cell declares.  A statement about
    all runs that depends on the selection therefore assumes tool lists
    whose items are named by strings ([typed_event] below). *)
Definition lists_tool (name : string) (s : state) : bool :=
  match tools s with
  | JArr items =>
      existsb (fun t => match own_prop t "name" with
                        | Some (JStr n) => String.eqb n name
                        | _ => false
                        end) items
  | _ => false
  end.

(** One event.  [None] means the event cannot happen in that state: the
    browser opens a socket once, delivers frames only while it is open and
    reports a failure only before it is closed, and moves [readyState]
    before it calls the handler; a timer fires only if one is pending; the
    call button exists only when a tool is selected and is disabled while
    [loading]. *)
Definition step (s : state) (e : event) : option state :=
  match e with
  | TransportOpens =>
      if Nat.eqb (readyState (socket s)) 0
      then Some (after socket_onopen (set_readyState 1 s))
      else None
  | TransportFails =>
      if Nat.eqb (readyState (socket s)) 3
      then None
      else Some (after socket_onerror (set_readyState 3 s))
  | TransportCloses =>
      Some (after socket_onclose (set_readyState 3 s))
  | FrameArrives text =>
      if Nat.eqb (readyState (socket s)) 1
      then Some (after (socket_onmessage text) s)
      else None
  | TimerFires =>
      match timers s with
      | 0 => None
      | S n => Some (after list_tools_later (with_timers n s))
      end
  | ClicksTool name =>
      if lists_tool name s
      then Some (after (setSelectedTool name) s)
      else None
  | TypesArg key value =>
      if String.eqb (selectedTool s) ""
      then None
      else Some (after (handleArgChange key (JStr value)) s)
  | ClicksCall =>
      if String.eqb (selectedTool s) "" || loading s
      then None
      else Some (after handleCallTool s)
  end.

Fixpoint run (s : state) (trace : list event) : option state :=
  match trace with
  | [] => Some s
  | e :: rest =>
      match step s e with
      | Some s' => run s' rest
      | None => None
      end
  end.

(** The [id] of every [tools/call] frame handed to the socket so far. *)
Definition is_call (frame : json) : bool :=
  match own_prop frame "method" with
  | Some (JStr m) => String.eqb m "tools/call"
  | _ => false
  end.

Definition call_ids (s : state) : list (option json) :=
  map (fun f => own_prop f "id") (filter is_call (sent (socket s))).

(** A request as the component writes it: the four fields in this order,
    version ["2.0"] under [jsonrpc], and one of the three methods. *)
Definition is_request (frame : json) : bool :=
  match frame with
  | JObj [(k1, JStr version); (k2, JStr _); (k3, JStr method); (k4, JObj _)] =>
      String.eqb k1 "jsonrpc" && String.eqb version "2.0"
      && String.eqb k2 "id" && String.eqb k3 "method" && String.eqb k4 "params"
      && (String.eqb method "initialize" || String.eqb method "tools/list"
          || String.eqb method "tools/call")
  | _ => false
  end.

End Environment.

(** ** A concrete runtime, for running the component on examples *)

(** Numbers are integers printed in decimal; exceptions print as V8 prints
    them. *)
Definition integer_to_string (z : Z) : string :=
  NilZero.string_of_int (Z.to_int z).

Definition v8_String (e : js_exn) : string :=
  match e with
  | SyntaxError detail => "SyntaxError: " ++ detail
  | TypeError_null_read prop =>
      "TypeError: Cannot read properties of null (reading '" ++ prop ++ "')"
  | TypeError_not_callable callee => "TypeError: " ++ callee ++ " is not a function"
  | TypeError_no_primitive => "TypeError: Cannot convert object to primitive value"
  | InvalidStateError => "InvalidStateError: Still in CONNECTING state."
  end.

#[local] Instance integer_runtime : Runtime := {
  number := Z;
  number_truthy := fun z => negb (Z.eqb z 0);
  number_to_string := integer_to_string;
  String_of_exn := v8_String
}.

Module Sample.

Definition text_item (t : string) : json :=
  JObj [("type", JStr "text"); ("text", JStr t)].

(** A [tools/list] answer with two tools; the first declares
    [{a: number, b: string}], both required. *)
Definition two_tools : json :=
  JObj [("jsonrpc", JStr "2.0"); ("id", JStr "list");
        ("result",
          JObj [("tools",
            JArr [JObj [("name", JStr "check_stock");
                        ("description", JStr "stock level");
                        ("inputSchema",
                          JObj [("type", JStr "object");
                                ("properties",
                                  JObj [("a", JObj [("type", JStr "number")]);
                                        ("b", JObj [("type", JStr "string")])]);
                                ("required", JArr [JStr "a"; JStr "b"])])];
                  JObj [("name", JStr "process_payment");
                        ("description", JStr "payment");
                        ("inputSchema", JObj [("type", JStr "object")])]])])].

(** The answer to [initialize]. *)
Definition init_ack : json :=
  JObj [("jsonrpc", JStr "2.0"); ("id", JStr "init");
        ("result",
          JObj [("protocolVersion", JStr "2024-11-05");
                ("capabilities", JObj [("tools", JObj [])]);
                ("serverInfo", JObj [("name", JStr "mcp"); ("version", JStr "1.0.0")])])].

Definition success (id text : string) : json :=
  JObj [("jsonrpc", JStr "2.0"); ("id", JStr id);
        ("result", JObj [("content", JArr [text_item text])])].

Definition refusal (message : string) : json :=
  JObj [("code", JNum (-32000)%Z); ("message", JStr message)].

Definition failure_fields (id message : string) : list (string * json) :=
  [("jsonrpc", JStr "2.0"); ("id", JStr id); ("error", refusal message)].

Definition failure (id message : string) : json :=
  JObj (failure_fields id message).

(** The socket opens, the tools are listed, the user picks [check_stock]. *)
Definition ready : list event :=
  [TransportOpens; TimerFires; FrameArrives (Parses two_tools);
   ClicksTool "check_stock"].

Definition or_mounted (s : option state) : state :=
  match s with
  | Some s' => s'
  | None => mounted
  end.

(** The state after the socket opened, with nothing else done. *)
Definition opened : state :=
  Eval vm_compute in or_mounted (run mounted [TransportOpens]).

(** The state after the socket opened and the timer fired. *)
Definition listing : state :=
  Eval vm_compute in or_mounted (run mounted [TransportOpens; TimerFires]).

(** The state after [ready]. *)
Definition picked : state :=
  Eval vm_compute in or_mounted (run mounted ready).

(** The state after [ready] and the close of the socket. *)
Definition picked_then_closed : state :=
  Eval vm_compute in or_mounted (run mounted (ready ++ [TransportCloses])).

(** The state after [ready] and one click on the call button. *)
Definition in_flight : state :=
  Eval vm_compute in or_mounted (run mounted (ready ++ [ClicksCall])).

End Sample.

(** ** Predicates on states and handlers *)

Local Open Scope list_scope.

(** [respects R h]: from any state, [h] ends in a state related by [R],
    whether it returns or throws. *)
Definition respects `{Runtime} {A} (R : state -> state -> Prop) (h : M A) : Prop :=
  forall s, R s (snd (h s)).

(** [keeps f]: the relation "the component [f] of the state is the same". *)
Definition keeps `{Runtime} {X} (f : state -> X) : state -> state -> Prop :=
  fun s s' => f s' = f s.

(** The socket took zero or more frames, each of them a request. *)
Definition emits `{Runtime} : state -> state -> Prop :=
  fun s s' =>
    exists more,
      sent (socket s') = sent (socket s) ++ more /\
      Forall (fun f => is_request f = true) more.

(** The link to the server is as it was: same status, same [ws], same
    [readyState]. *)
Definition same_link `{Runtime} : state -> state -> Prop :=
  fun s s' =>
    status s' = status s /\ ws s' = ws s /\
    readyState (socket s') = readyState (socket s).

Section Predicates.
Context `{RT : Runtime}.

(** A component of the state that the four display cells ([tools],
    [response], [error], [loading]) do not enter. *)
Definition display_blind {X} (f : state -> X) : Prop :=
  forall s,
    (forall v, f (with_tools v s) = f s) /\
    (forall v, f (with_response v s) = f s) /\
    (forall v, f (with_error v s) = f s) /\
    (forall v, f (with_loading v s) = f s).

(** Along a run, [ws] points to the socket, and the status cell says
    [online] exactly while the socket is open. *)
Definition link_consistent (s : state) : Prop :=
  ws s = Some TheSocket /\
  (status s = online <-> readyState (socket s) = 1).

(** Along a run, the first frame the socket ever took is [initialize],
    and it took none before it opened. *)
Definition initialize_first (s : state) : Prop :=
  (sent (socket s) = [] /\ readyState (socket s) <> 1)
  \/ exists rest, sent (socket s) = initialize_frame :: rest.

(** Once the socket is closed with a call in flight, nothing that can
    still happen clears [loading]. *)
Definition stranded (s : state) : Prop :=
  readyState (socket s) = 3 /\ loading s = true.

End Predicates.

(** An error that concerns one call: the selected tool is not in the
    list, or the server answers with an error response. *)
Inductive local_error `{RT : Runtime} : state -> state -> Prop :=
| unknown_tool (s : state) :
    not_connected s = false ->
    array_find "tools.find" (tools s) (name_is (selectedTool s)) = Normal None ->
    local_error s (after handleCallTool s)
| tool_invocation_error (s : state) (fs : list (string * json)) (e : json) :
    lookup "result" fs = None ->
    lookup "error" fs = Some e -> truthy e = true ->
    local_error s (after (socket_onmessage (Parses (JObj fs))) s).

(** More states of the sample session. *)
Module Demo.

(** [a = 12] has been typed for [check_stock]. *)
Definition typed : state :=
  Eval vm_compute in
    Sample.or_mounted (run mounted (Sample.ready ++ [TypesArg "a" "12"])).

(** Then [process_payment] is picked in the list. *)
Definition switched : state :=
  Eval vm_compute in
    Sample.or_mounted
      (run mounted
         (Sample.ready ++ [TypesArg "a" "12"; ClicksTool "process_payment"])).

(** Then the call button is clicked. *)
Definition switched_call : state :=
  Eval vm_compute in
    Sample.or_mounted
      (run mounted
         (Sample.ready ++
          [TypesArg "a" "12"; ClicksTool "process_payment"; ClicksCall])).

(** The call of [check_stock] was issued and the socket closed before the
    answer. *)
Definition closed : state :=
  Eval vm_compute in
    Sample.or_mounted
      (run mounted (Sample.ready ++ [ClicksCall; TransportCloses])).

End Demo.

(** ** Further predicates on the frames and the argument map *)

Section Wire.
Context `{RT : Runtime}.

Definition method_is (m : string) (frame : json) : bool :=
  match own_prop frame "method" with
  | Some (JStr x) => String.eqb x m
  | _ => false
  end.

(** How many frames with this method the socket took so far. *)
Definition count_method (m : string) (s : state) : nat :=
  length (filter (method_is m) (sent (socket s))).

(** Every value of the argument map is a string. *)
Definition string_valued (args : list (string * json)) : Prop :=
  Forall (fun kv => exists v, snd kv = JStr v) args.

(** The argument map as the form can build it: each key once, every value
    a string. *)
Definition typed_args (args : list (string * json)) : Prop :=
  NoDup (map fst args) /\ string_valued args.

(** One of the three frames the component writes, a call naming a tool
    and carrying an argument map the form can build. *)
Definition written_frame (frame : json) : Prop :=
  frame = initialize_frame \/
  frame = tools_list_frame \/
  exists selected args,
    frame = tools_call_frame selected args /\
    selected <> "" /\ typed_args args.

(** An item of [result.content] and the text it contributes: the string
    under [text], or nothing when the item is not [null] and has no
    [text]. *)
Definition has_text (item : json) (text : option string) : Prop :=
  item <> JNull /\ own_prop item "text" = option_map JStr text.

Definition text_or_empty (text : option string) : string :=
  match text with
  | Some t => t
  | None => ""
  end.

(** A tool as [interface MCPTool] declares it, as far as the selection is
    concerned: its [name] is a string. *)
Definition named_tool (t : json) : bool :=
  match own_prop t "name" with
  | Some (JStr _) => true
  | _ => false
  end.

(** A frame that lists tools lists an array of tools named by strings: a
    [result.tools] that is there is such an array, or is falsy and
    ignored. *)
Definition lists_named_tools (text : frame_text) : bool :=
  match text with
  | Parses data =>
      match own_prop data "result" with
      | Some r =>
          match own_prop r "tools" with
          | Some (JArr items) => forallb named_tool items
          | Some t => negb (truthy t)
          | None => true
          end
      | None => true
      end
  | Garbled _ => true
  end.

Definition typed_event (e : event) : bool :=
  match e with
  | FrameArrives text => lists_named_tools text
  | _ => true
  end.

(** The frames on the wire and the argument map are well formed. *)
Definition wire_ok (s : state) : Prop :=
  typed_args (toolArgs s) /\ Forall written_frame (sent (socket s)).

(** The handshake went out at most once: [initialize] before the socket
    opened not at all, afterwards once; [tools/list] once the timer has
    fired, and the timer is armed once. *)
Definition handshake_once (s : state) : Prop :=
  (readyState (socket s) = 0 -> count_method "initialize" s = 0) /\
  count_method "initialize" s <= 1 /\
  count_method "tools/list" s + timers s <= count_method "initialize" s.

(** The closure variable [isOpen] is set exactly when something was sent. *)
Definition opened_iff_sent (s : state) : Prop :=
  (isOpen s = true <-> sent (socket s) <> []) /\
  (readyState (socket s) = 1 -> isOpen s = true).

(** A closed socket that reports offline. *)
Definition closed_for_good (s0 s : state) : Prop :=
  readyState (socket s) = 3 /\ status s = offline /\
  sent (socket s) = sent (socket s0) /\ tools s = tools s0.

(** The four ways [handleCallTool] can end. *)
Inductive call_outcome (s : state) : completion unit * state -> Prop :=
| refused_not_connected :
    not_connected s = true ->
    call_outcome s
      (Normal tt,
       mkState (status s) (tools s) (selectedTool s) (toolArgs s)
         "" "WebSocket MCP non connecté." false
         (ws s) (socket s) (isOpen s) (timers s))
| refused_unknown_tool :
    readyState (socket s) = 1 ->
    call_outcome s
      (Normal tt,
       mkState (status s) (tools s) (selectedTool s) (toolArgs s)
         "" "Outil non trouvé." false
         (ws s) (socket s) (isOpen s) (timers s))
| frame_sent :
    readyState (socket s) = 1 ->
    call_outcome s
      (Normal tt,
       mkState (status s) (tools s) (selectedTool s) (toolArgs s)
         "" "" true (ws s)
         (mkSocket 1
            (sent (socket s) ++ [tools_call_frame (selectedTool s) (toolArgs s)]))
         (isOpen s) (timers s))
| find_threw (e : js_exn) :
    readyState (socket s) = 1 ->
    call_outcome s
      (Throw e,
       mkState (status s) (tools s) (selectedTool s) (toolArgs s)
         "" "" true (ws s) (socket s) (isOpen s) (timers s)).

(** What the [catch] block leaves. *)
Definition reported (e : js_exn) (s : state) : completion unit * state :=
  (Normal tt,
   with_loading false
     (with_error ("Erreur de parsing MCP: " ++ String_of_exn e)%string s)).

End Wire.

(** ** OntologyManager: the entity form *)

(** The second component of the file: the dialog in which an entity of the
    ontology is created or edited.  Only the handlers of the form are
    modelled; the handlers that call the HTTP API are asynchronous and are
    left out. *)
Module Ontology.

(** [interface Entity]; the optional fields are [undefined] when absent. *)
Record Entity : Type := mkEntity {
  entity_name : string;
  entity_properties : list string;
  entity_description : option string;
  entity_uri : option string
}.

(** The [entityForm] cell. *)
Record EntityForm : Type := mkForm {
  name : string;
  description : string;
  properties : list string;
  newProperty : string
}.

(** The cells the form handlers read or write. *)
Record ostate : Type := mkOState {
  entityDialogOpen : bool;
  editingEntity : option Entity;
  entityForm : EntityForm
}.

Section Form.
(** [String.prototype.trim], which belongs to the engine. *)
Variable trim : string -> string.

Definition setEntityForm (update : EntityForm -> EntityForm) (s : ostate) : ostate :=
  mkOState (entityDialogOpen s) (editingEntity s) (update (entityForm s)).

Definition setEditingEntity (v : option Entity) (s : ostate) : ostate :=
  mkOState (entityDialogOpen s) v (entityForm s).

Definition setEntityDialogOpen (v : bool) (s : ostate) : ostate :=
  mkOState v (editingEntity s) (entityForm s).

(** [properties.includes(p)]. *)
Definition includes (p : string) (l : list string) : bool :=
  existsb (String.eqb p) l.

(** A string is truthy when it is not empty. *)
Definition nonempty (x : string) : bool := negb (String.eqb x "").

(** [handleAddProperty].  The guard and the value appended are read from
    the form of the current render; the update is applied to the form the
    cell holds, which within one event is the same form. *)
Definition handleAddProperty (s : ostate) : ostate :=
  let shown := entityForm s in
  if nonempty (trim (newProperty shown))
     && negb (includes (trim (newProperty shown)) (properties shown))
  then
    setEntityForm
      (fun prev =>
         mkForm (name prev) (description prev)
           (properties prev ++ [trim (newProperty shown)]) "")
      s
  else s.

(** [handleRemoveProperty]. *)
Definition handleRemoveProperty (property : string) (s : ostate) : ostate :=
  setEntityForm
    (fun prev =>
       mkForm (name prev) (description prev)
         (filter (fun p => negb (String.eqb p property)) (properties prev))
         (newProperty prev))
    s.

(** [resetForm]. *)
Definition resetForm (s : ostate) : ostate :=
  setEditingEntity None (setEntityForm (fun _ => mkForm "" "" [] "") s).

(** [entity.description || '']. *)
Definition description_or_empty (d : option string) : string :=
  match d with
  | Some text => if nonempty text then text else ""
  | None => ""
  end.

(** [handleEditEntity]. *)
Definition handleEditEntity (entity : Entity) (s : ostate) : ostate :=
  setEntityDialogOpen true
    (setEntityForm
       (fun _ =>
          mkForm (entity_name entity)
            (description_or_empty (entity_description entity))
            (entity_properties entity) "")
       (setEditingEntity (Some entity) s)).

End Form.

End Ontology.

(** * Properties *)

(** ** What a handler leaves alone *)

Section Respects.
Context `{RT : Runtime}.
Variable R : state -> state -> Prop.
Context {R_pre : PreOrder R}.

Lemma respects_ret A (a : A) : respects R (ret a).
Proof. intro s. simpl. reflexivity. Qed.

Lemma respects_lift A (c : completion A) : respects R (lift c).
Proof. intro s. simpl. reflexivity. Qed.

Lemma respects_gets A (f : state -> A) : respects R (gets f).
Proof. intro s. simpl. reflexivity. Qed.

Lemma respects_modify (f : state -> state) :
  (forall s, R s (f s)) -> respects R (modify f).
Proof. intros Hf s. simpl. apply Hf. Qed.

Lemma respects_bind A B (m : M A) (k : A -> M B) :
  respects R m -> (forall a, respects R (k a)) -> respects R (bind m k).
Proof.
  intros Hm Hk s. unfold bind. specialize (Hm s).
  destruct (m s) as [[a | e] s1]; simpl in *.
  - transitivity s1; [assumption | apply Hk].
  - assumption.
Qed.

Lemma respects_try_catch A (body : M A) (handler : js_exn -> M A) :
  respects R body -> (forall e, respects R (handler e)) ->
  respects R (try_catch body handler).
Proof.
  intros Hb Hh s. unfold try_catch. specialize (Hb s).
  destruct (body s) as [[a | e] s1]; simpl in *.
  - assumption.
  - transitivity s1; [assumption | apply Hh].
Qed.

Lemma respects_socket_send (frame : json) :
  (forall s, readyState (socket s) = 1 ->
             R s (with_socket (mkSocket 1 (sent (socket s) ++ [frame])) s)) ->
  respects R (socket_send frame).
Proof.
  intros Hsend s. unfold socket_send.
  destruct (readyState (socket s)) as [| [| n]] eqn:E; simpl.
  - reflexivity.
  - apply Hsend. assumption.
  - reflexivity.
Qed.

End Respects.

(** Breaks a handler down along its binds and branches. *)
Ltac respects_step :=
  match goal with
  | |- PreOrder _ => typeclasses eauto
  | |- respects _ (ret _) => apply respects_ret
  | |- respects _ (lift _) => apply respects_lift
  | |- respects _ (gets _) => apply respects_gets
  | |- respects _ (bind _ _) => apply respects_bind
  | |- respects _ (try_catch _ _) => apply respects_try_catch
  | |- respects _ (match ?x with _ => _ end) => destruct x
  | |- respects _ _ => fail 1
  | |- forall _, _ => intro
  end.

Ltac respects_walk := repeat respects_step.

#[local] Instance keeps_preorder `{Runtime} {X} (f : state -> X) : PreOrder (keeps f).
Proof.
  split.
  - intro s. reflexivity.
  - intros a b c Hab Hbc. unfold keeps in *. congruence.
Qed.

#[local] Instance emits_preorder `{Runtime} : PreOrder emits.
Proof.
  split.
  - intro s. exists []. split; [ | constructor].
    symmetry. apply app_nil_r.
  - intros a b c [m1 [H1 F1]] [m2 [H2 F2]].
    exists (m1 ++ m2). split.
    + rewrite H2, H1. symmetry. apply app_assoc.
    + apply Forall_app. split; assumption.
Qed.

#[local] Instance same_link_preorder `{Runtime} : PreOrder same_link.
Proof.
  split.
  - intro s. repeat split.
  - intros a b c [H1 [H2 H3]] [H4 [H5 H6]]. unfold same_link.
    repeat split; congruence.
Qed.

Section HandlerFacts.
Context `{RT : Runtime}.

Lemma blind_setTools X (f : state -> X) v :
  display_blind f -> respects (keeps f) (setTools v).
Proof. intros Hf. apply respects_modify. intro s. apply Hf. Qed.

Lemma blind_setResponse X (f : state -> X) v :
  display_blind f -> respects (keeps f) (setResponse v).
Proof. intros Hf. apply respects_modify. intro s. apply Hf. Qed.

Lemma blind_setError X (f : state -> X) v :
  display_blind f -> respects (keeps f) (setError v).
Proof. intros Hf. apply respects_modify. intro s. apply Hf. Qed.

Lemma blind_setLoading X (f : state -> X) v :
  display_blind f -> respects (keeps f) (setLoading v).
Proof. intros Hf. apply respects_modify. intro s. apply Hf. Qed.

(** [socket.onmessage] writes the display cells and nothing else. *)
Lemma onmessage_display_only X (f : state -> X) (text : frame_text) :
  display_blind f -> respects (keeps f) (socket_onmessage text).
Proof.
  intros Hf. unfold socket_onmessage, onmessage_try.
  respects_walk;
    auto using blind_setTools, blind_setResponse, blind_setError, blind_setLoading.
Qed.

(** [socket.onmessage] never lets an exception out. *)
Lemma onmessage_returns (text : frame_text) (s : state) :
  fst (socket_onmessage text s) = Normal tt.
Proof.
  unfold socket_onmessage, try_catch.
  destruct (onmessage_try text s) as [[[] | e] s1]; reflexivity.
Qed.

Lemma status_display_blind : display_blind status.
Proof. intro s. repeat split. Qed.

Lemma socket_display_blind : display_blind socket.
Proof. intro s. repeat split. Qed.

Lemma ws_display_blind : display_blind ws.
Proof. intro s. repeat split. Qed.

Lemma selectedTool_display_blind : display_blind selectedTool.
Proof. intro s. repeat split. Qed.

Lemma toolArgs_display_blind : display_blind toolArgs.
Proof. intro s. repeat split. Qed.

Lemma isOpen_display_blind : display_blind isOpen.
Proof. intro s. repeat split. Qed.

Lemma timers_display_blind : display_blind timers.
Proof. intro s. repeat split. Qed.

End HandlerFacts.

Section Frames.
Context `{RT : Runtime}.

Lemma lookup_obj_set_other (k k' : string) (v : json) (fs : list (string * json)) :
  k <> k' -> lookup k (obj_set k' v fs) = lookup k fs.
Proof.
  intro Hk. induction fs as [| [k0 v0] rest IH]; simpl.
  - destruct (String.eqb_spec k k'); [contradiction | reflexivity].
  - destruct (String.eqb_spec k' k0) as [E | E]; simpl.
    + subst k0. destruct (String.eqb_spec k k'); [contradiction | reflexivity].
    + destruct (String.eqb k k0); [reflexivity | exact IH].
Qed.

(** Of an object frame the handler reads [result] and [error] only. *)
Lemma onmessage_reads_two_fields (fs fs' : list (string * json)) (s : state) :
  lookup "result" fs = lookup "result" fs' ->
  lookup "error" fs = lookup "error" fs' ->
  socket_onmessage (Parses (JObj fs)) s = socket_onmessage (Parses (JObj fs')) s.
Proof.
  intros Hr He.
  unfold socket_onmessage, try_catch, onmessage_try, bind, lift. simpl.
  rewrite Hr, He. reflexivity.
Qed.

(** A truthy value is not [null], so reading a property of it succeeds. *)
Lemma member_of_truthy (r : json) (k : string) :
  truthy r = true -> member (Some r) k = Normal (own_prop r k).
Proof. destruct r; simpl; intro H; try reflexivity. discriminate. Qed.

Lemma and_member_absent (r : option json) (k : string) :
  (forall j, r = Some j -> own_prop j k = None) ->
  as_truthy (match and_member r k with Normal v => v | Throw _ => None end) = None
  /\ exists v, and_member r k = Normal v.
Proof.
  intro Habs.
  destruct r as [j |].
  - destruct (truthy j) eqn:T.
    + pose proof (member_of_truthy j k T) as Hm.
      rewrite (Habs j eq_refl) in Hm.
      unfold and_member, as_truthy. rewrite T, Hm.
      split; [reflexivity | eexists; reflexivity].
    + unfold and_member, as_truthy. rewrite T. cbv iota. rewrite T.
      split; [reflexivity | eexists; reflexivity].
  - split; [reflexivity | eexists; reflexivity].
Qed.

End Frames.

(** C10.  A parsed frame with no [error] field whose [result] has neither
    [tools] nor [content] (the acknowledgement of [initialize] is one) is
    dropped by the message handler: it returns normally and the whole state
    (tools, status, response, error, loading, and the socket with the frames
    it sent) is what it was. *)
Theorem C10_plain_result_is_dropped `{RT : Runtime}
    (s : state) (fs : list (string * json)) :
  lookup "error" fs = None ->
  (forall r, lookup "result" fs = Some r ->
             own_prop r "tools" = None /\ own_prop r "content" = None) ->
  socket_onmessage (Parses (JObj fs)) s = (Normal tt, s).
Proof.
  intros Herr Hres.
  destruct (and_member_absent (r := lookup "result" fs) "tools") as [T1 [v1 E1]].
  { intros j Hj. apply (Hres j Hj). }
  destruct (and_member_absent (r := lookup "result" fs) "content") as [T2 [v2 E2]].
  { intros j Hj. apply (Hres j Hj). }
  rewrite E1 in T1. rewrite E2 in T2.
  unfold socket_onmessage, try_catch, onmessage_try, bind, lift. simpl.
  rewrite E1, T1, E2, T2, Herr. reflexivity.
Qed.

(** The acknowledgement of [initialize], arriving on a freshly opened
    socket, changes nothing. *)
Lemma C10_witness :
  socket_onmessage (Parses Sample.init_ack) Sample.opened
  = (Normal tt, Sample.opened).
Proof.
  apply (C10_plain_result_is_dropped Sample.opened
           [("jsonrpc", JStr "2.0"); ("id", JStr "init");
            ("result",
              JObj [("protocolVersion", JStr "2024-11-05");
                    ("capabilities", JObj [("tools", JObj [])]);
                    ("serverInfo",
                      JObj [("name", JStr "mcp"); ("version", JStr "1.0.0")])])]).
  - reflexivity.
  - intros r Hr. simpl in Hr. injection Hr as <-. split; reflexivity.
Defined.

(** C7, as the code has it.  The handler never consults the [id] of a
    response: two frames that differ in their [id] only take the component
    to the same state, no exception leaves the handler, and the connection
    status and the socket (the frames sent included) are untouched.  There
    is no table of pending calls against which an [id] could fail to
    match. *)
Theorem C7_response_id_is_not_consulted `{RT : Runtime}
    (s : state) (fs : list (string * json)) (id id' : json) :
  socket_onmessage (Parses (JObj (obj_set "id" id fs))) s
  = socket_onmessage (Parses (JObj (obj_set "id" id' fs))) s
  /\ fst (socket_onmessage (Parses (JObj (obj_set "id" id fs))) s) = Normal tt
  /\ status (after (socket_onmessage (Parses (JObj (obj_set "id" id fs)))) s)
     = status s
  /\ socket (after (socket_onmessage (Parses (JObj (obj_set "id" id fs)))) s)
     = socket s.
Proof.
  repeat split.
  - apply onmessage_reads_two_fields.
    + rewrite !lookup_obj_set_other by discriminate. reflexivity.
    + rewrite !lookup_obj_set_other by discriminate. reflexivity.
  - apply onmessage_returns.
  - apply (onmessage_display_only _ status_display_blind).
  - apply (onmessage_display_only _ socket_display_blind).
Qed.

(** C7 as stated fails: on a socket that has just opened, with no call
    ever issued, a well-formed success response changes the displayed
    response. *)
Lemma C7_counterexample :
  option_map call_ids (run mounted [TransportOpens]) = Some [] /\
  option_map response (run mounted [TransportOpens]) = Some "" /\
  option_map response
    (run mounted
       [TransportOpens;
        FrameArrives (Parses (Sample.success "call_check_stock" "late"))])
  = Some "late".
Proof. vm_compute. repeat split. Qed.

(** C4, as the code has it.  A frame that does not parse is caught, so no
    exception leaves the handler, and the status, the tool list, the
    displayed response and the socket are untouched; but it is not
    discarded: the error cell is set to the parse-error message and
    [loading] is cleared, which is how the component ends a call that is in
    flight.  For every frame whatever, the handler returns normally and
    leaves the status and the socket alone. *)
Theorem C4_garbled_frame_is_shown_as_error `{RT : Runtime}
    (s : state) (detail : string) :
  socket_onmessage (Garbled detail) s
  = (Normal tt,
     with_loading false
       (with_error ("Erreur de parsing MCP: " ++ String_of_exn (SyntaxError detail))%string
          s))
  /\ (forall text : frame_text,
        fst (socket_onmessage text s) = Normal tt
        /\ status (after (socket_onmessage text) s) = status s
        /\ socket (after (socket_onmessage text) s) = socket s).
Proof.
  split.
  - reflexivity.
  - intro text. repeat split.
    + apply onmessage_returns.
    + apply (onmessage_display_only text status_display_blind).
    + apply (onmessage_display_only text socket_display_blind).
Qed.

(** C4 as stated fails: with one call in flight, a frame that does not
    parse ends it, with an error shown to the caller. *)
Lemma C4_counterexample :
  option_map (fun s => (loading s, error s))
    (run mounted (Sample.ready ++ [ClicksCall]))
  = Some (true, "") /\
  option_map (fun s => (loading s, error s))
    (run mounted
       (Sample.ready ++
        [ClicksCall;
         FrameArrives (Garbled "Unexpected token < in JSON at position 0")]))
  = Some (false,
          "Erreur de parsing MCP: SyntaxError: Unexpected token < in JSON at position 0").
Proof. vm_compute. repeat split. Qed.

Section CallTool.
Context `{RT : Runtime}.

(** [handleCallTool] writes [loading], [response] and [error], and may
    hand one [tools/call] frame to an open socket; whatever tolerates
    these steps holds across the handler. *)
Lemma respects_handleCallTool (R : state -> state -> Prop) `{!PreOrder R} :
  (forall s v, R s (with_loading v s)) ->
  (forall s v, R s (with_response v s)) ->
  (forall s v, R s (with_error v s)) ->
  (forall s selected args,
      readyState (socket s) = 1 ->
      R s (with_socket
             (mkSocket 1 (sent (socket s) ++ [tools_call_frame selected args])) s)) ->
  respects R handleCallTool.
Proof.
  intros Hl Hr He Hs. unfold handleCallTool.
  respects_walk;
    match goal with
    | |- respects _ (socket_send _) =>
        apply respects_socket_send; [typeclasses eauto | intros; auto]
    | |- respects _ _ => apply respects_modify; intro; auto
    end.
Qed.

Lemma handleCallTool_keeps X (f : state -> X) :
  display_blind f ->
  (forall s w, f (with_socket w s) = f s) ->
  respects (keeps f) handleCallTool.
Proof.
  intros Hd Hw.
  apply respects_handleCallTool; try typeclasses eauto; unfold keeps; intros.
  - apply Hd.
  - apply Hd.
  - apply Hd.
  - apply Hw.
Qed.

(** The guard of [handleCallTool] looks at [ws] and the socket only. *)
Lemma not_connected_after_reset (s : state) :
  not_connected (with_error "" (with_response "" (with_loading true s)))
  = not_connected s.
Proof. reflexivity. Qed.

(** Behind a socket that is not open, [handleCallTool] reports it and
    returns: nothing is sent, nothing stays in flight. *)
Lemma handleCallTool_not_connected (s : state) :
  not_connected s = true ->
  handleCallTool s
  = (Normal tt,
     mkState (status s) (tools s) (selectedTool s) (toolArgs s)
       "" "WebSocket MCP non connecté." false
       (ws s) (socket s) (isOpen s) (timers s)).
Proof.
  intro Hdown. unfold handleCallTool, bind, gets, setLoading, setResponse,
    setError, modify. cbv beta iota.
  rewrite not_connected_after_reset, Hdown. reflexivity.
Qed.

(** What [tools.find] returns is an object, hence truthy. *)
Lemma find_throwing_truthy (selected : string) (items : list json) (t : json) :
  find_throwing (name_is selected) items = Normal (Some t) -> truthy t = true.
Proof.
  induction items as [| x rest IH]; simpl; intro H.
  - discriminate.
  - unfold name_is at 1 in H.
    destruct x; simpl in H; try discriminate; try (apply IH; exact H).
    destruct (lookup "name" fields) as [[| | | n | |] |]; simpl in H;
      try (apply IH; exact H).
    destruct (String.eqb n selected).
    + injection H as <-. reflexivity.
    + apply IH. exact H.
Qed.

Lemma array_find_truthy (selected : string) (known t : json) :
  array_find "tools.find" known (name_is selected) = Normal (Some t) ->
  as_truthy (Some t) = Some t.
Proof.
  destruct known; simpl; try discriminate.
  intro H. rewrite (find_throwing_truthy _ _ H). reflexivity.
Qed.

(** On an open socket and a listed tool, [handleCallTool] sends one
    frame and leaves the call in flight. *)
Lemma handleCallTool_sends (s : state) (t : json) :
  not_connected s = false ->
  array_find "tools.find" (tools s) (name_is (selectedTool s)) = Normal (Some t) ->
  handleCallTool s
  = (Normal tt,
     mkState (status s) (tools s) (selectedTool s) (toolArgs s)
       "" "" true (ws s)
       (mkSocket 1
          (sent (socket s) ++ [tools_call_frame (selectedTool s) (toolArgs s)]))
       (isOpen s) (timers s)).
Proof.
  intros Hup Hfind.
  assert (Hrs : readyState (socket s) = 1).
  { unfold not_connected in Hup. destruct (ws s) as [[] |]; [ | discriminate].
    apply Bool.negb_false_iff in Hup. apply Nat.eqb_eq in Hup. exact Hup. }
  unfold handleCallTool, bind, gets, lift, setLoading, setResponse,
    setError, modify. cbv beta iota.
  rewrite not_connected_after_reset, Hup. cbn [tools selectedTool with_error
    with_response with_loading toolArgs].
  rewrite Hfind, (array_find_truthy _ _ Hfind).
  unfold socket_send. cbn [socket with_error with_response with_loading].
  rewrite Hrs. reflexivity.
Qed.

(** On an open socket and a tool that is not listed, [handleCallTool]
    reports it and sends nothing. *)
Lemma handleCallTool_unknown (s : state) :
  not_connected s = false ->
  array_find "tools.find" (tools s) (name_is (selectedTool s)) = Normal None ->
  handleCallTool s
  = (Normal tt,
     mkState (status s) (tools s) (selectedTool s) (toolArgs s)
       "" "Outil non trouvé." false
       (ws s) (socket s) (isOpen s) (timers s)).
Proof.
  intros Hup Hfind.
  unfold handleCallTool, bind, gets, lift, setLoading, setResponse,
    setError, modify. cbv beta iota.
  rewrite not_connected_after_reset, Hup. cbn [tools selectedTool with_error
    with_response with_loading toolArgs].
  rewrite Hfind. reflexivity.
Qed.

(** While no tool is listed, [handleCallTool] sends nothing either, open
    socket or not. *)
Lemma handleCallTool_without_tools (s : state) :
  tools s = JArr [] ->
  socket (after handleCallTool s) = socket s /\
  loading (after handleCallTool s) = false.
Proof.
  intro Hnone. unfold after.
  destruct (not_connected s) eqn:Hconn.
  - rewrite (handleCallTool_not_connected s Hconn). split; reflexivity.
  - rewrite (handleCallTool_unknown s Hconn).
    + split; reflexivity.
    + rewrite Hnone. reflexivity.
Qed.

End CallTool.

Section Runs.
Context `{RT : Runtime}.

Lemma run_app (s : state) (t1 t2 : list event) :
  run s (t1 ++ t2)
  = match run s t1 with
    | Some s1 => run s1 t2
    | None => None
    end.
Proof.
  revert s. induction t1 as [| e rest IH]; intro s; simpl.
  - reflexivity.
  - destruct (step s e); [apply IH | reflexivity].
Qed.

(** Induction along a run. *)
Lemma run_invariant (P : state -> Prop) (start : state) :
  P start ->
  (forall s e s', P s -> step s e = Some s' -> P s') ->
  forall trace s, run start trace = Some s -> P s.
Proof.
  intros H0 Hstep trace. revert start H0.
  induction trace as [| e rest IH]; intros start H0 s Hrun; simpl in Hrun.
  - injection Hrun as <-. exact H0.
  - destruct (step start e) as [s1 |] eqn:E; [ | discriminate].
    apply (IH s1); [ | exact Hrun]. apply (Hstep start e); assumption.
Qed.

(** [socket.onopen] on the socket that has just opened. *)
Lemma onopen_on_open_socket (s : state) :
  readyState (socket s) = 1 ->
  socket_onopen s
  = (Normal tt,
     mkState online (tools s) (selectedTool s) (toolArgs s) (response s)
       (error s) (loading s) (ws s)
       (mkSocket 1 (sent (socket s) ++ [initialize_frame]))
       true (S (timers s))).
Proof.
  intro Hrs.
  unfold socket_onopen, bind, modify, setStatus, socket_send, setTimeout_200.
  simpl. rewrite Hrs. reflexivity.
Qed.

(** The deferred [tools/list] on an open socket. *)
Lemma list_tools_later_on_open_socket (s : state) :
  readyState (socket s) = 1 ->
  list_tools_later s
  = (Normal tt,
     with_socket (mkSocket 1 (sent (socket s) ++ [tools_list_frame])) s).
Proof.
  intro Hrs. unfold list_tools_later, socket_send. cbv beta.
  rewrite Hrs. reflexivity.
Qed.

(** A socket that is not open takes no frame. *)
Lemma socket_send_not_open (frame : json) (s : state) :
  readyState (socket s) <> 1 -> snd (socket_send frame s) = s.
Proof.
  intro Hrs. unfold socket_send.
  destruct (readyState (socket s)) as [| [| n]]; try reflexivity.
  contradiction Hrs. reflexivity.
Qed.

Lemma socket_send_same_link (frame : json) : respects same_link (socket_send frame).
Proof.
  apply respects_socket_send; [typeclasses eauto | ].
  intros s Hrs. repeat split. simpl. symmetry. exact Hrs.
Qed.

Lemma socket_send_emits (frame : json) :
  is_request frame = true -> respects emits (socket_send frame).
Proof.
  intro Hreq. apply respects_socket_send; [typeclasses eauto | ].
  intros s _. exists [frame]. split; [reflexivity | ].
  constructor; [exact Hreq | constructor].
Qed.

Lemma same_socket_emits (s s' : state) : socket s' = socket s -> emits s s'.
Proof.
  intro H. exists []. rewrite H. split; [ | constructor].
  symmetry. apply app_nil_r.
Qed.

Lemma handleCallTool_same_link : respects same_link handleCallTool.
Proof.
  apply respects_handleCallTool; try typeclasses eauto; intros;
    repeat split.
  simpl. symmetry. assumption.
Qed.

Lemma handleCallTool_emits : respects emits handleCallTool.
Proof.
  apply respects_handleCallTool; try typeclasses eauto.
  - intros s v. apply same_socket_emits. reflexivity.
  - intros s v. apply same_socket_emits. reflexivity.
  - intros s v. apply same_socket_emits. reflexivity.
  - intros s selected args _.
    exists [tools_call_frame selected args]. split; [reflexivity | ].
    constructor; [reflexivity | constructor].
Qed.

Lemma onmessage_same_link (text : frame_text) :
  respects same_link (socket_onmessage text).
Proof.
  intro s. repeat split.
  - apply (onmessage_display_only text status_display_blind).
  - apply (onmessage_display_only text ws_display_blind).
  - f_equal. apply (onmessage_display_only text socket_display_blind).
Qed.

(** Every event makes the socket take zero or more requests. *)
Lemma step_emits (s : state) (e : event) (s' : state) :
  step s e = Some s' -> emits s s'.
Proof.
  destruct e; simpl; intro H.
  - destruct (Nat.eqb (readyState (socket s)) 0); [ | discriminate].
    injection H as <-. unfold after.
    rewrite onopen_on_open_socket by reflexivity.
    exists [initialize_frame]. split; [reflexivity | ].
    constructor; [reflexivity | constructor].
  - destruct (Nat.eqb (readyState (socket s)) 3); [discriminate | ].
    injection H as <-. exists []. split; [ | constructor].
    simpl. symmetry. apply app_nil_r.
  - injection H as <-. exists []. split; [ | constructor].
    unfold after, socket_onclose, bind, gets, setStatus, modify. simpl.
    destruct (isOpen s); simpl; symmetry; apply app_nil_r.
  - destruct (Nat.eqb (readyState (socket s)) 1); [ | discriminate].
    injection H as <-. apply same_socket_emits.
    apply (onmessage_display_only text socket_display_blind).
  - destruct (timers s) as [| n]; [discriminate | ].
    injection H as <-.
    transitivity (with_timers n s).
    + apply same_socket_emits. reflexivity.
    + apply (socket_send_emits tools_list_frame eq_refl).
  - destruct (lists_tool name s); [ | discriminate].
    injection H as <-. apply same_socket_emits. reflexivity.
  - destruct (String.eqb (selectedTool s) ""); [discriminate | ].
    injection H as <-. apply same_socket_emits. reflexivity.
  - destruct (String.eqb (selectedTool s) "" || loading s); [discriminate | ].
    injection H as <-. apply handleCallTool_emits.
Qed.

Lemma same_link_consistent (s s' : state) :
  same_link s s' -> link_consistent s -> link_consistent s'.
Proof.
  intros [H1 [H2 H3]] [Hw Hs]. unfold link_consistent.
  rewrite H1, H2, H3. split; assumption.
Qed.

Lemma step_link_consistent (s : state) (e : event) (s' : state) :
  link_consistent s -> step s e = Some s' -> link_consistent s'.
Proof.
  intros Hinv. destruct e; simpl; intro H.
  - destruct (Nat.eqb (readyState (socket s)) 0); [ | discriminate].
    injection H as <-. unfold after.
    rewrite onopen_on_open_socket by reflexivity.
    destruct Hinv as [Hw _]. split; [exact Hw | ]. simpl. split; reflexivity.
  - destruct (Nat.eqb (readyState (socket s)) 3); [discriminate | ].
    injection H as <-. destruct Hinv as [Hw _].
    split; [exact Hw | ]. simpl. split; discriminate.
  - injection H as <-. destruct Hinv as [Hw _].
    unfold after, socket_onclose, bind, gets, setStatus, modify. simpl.
    destruct (isOpen s); (split; [exact Hw | simpl; split; discriminate]).
  - destruct (Nat.eqb (readyState (socket s)) 1); [ | discriminate].
    injection H as <-.
    apply (same_link_consistent (onmessage_same_link text s) Hinv).
  - destruct (timers s) as [| n]; [discriminate | ].
    injection H as <-.
    apply (same_link_consistent (socket_send_same_link tools_list_frame _)).
    exact Hinv.
  - destruct (lists_tool name s); [ | discriminate].
    injection H as <-. exact Hinv.
  - destruct (String.eqb (selectedTool s) ""); [discriminate | ].
    injection H as <-. exact Hinv.
  - destruct (String.eqb (selectedTool s) "" || loading s); [discriminate | ].
    injection H as <-.
    apply (same_link_consistent (handleCallTool_same_link s) Hinv).
Qed.

Lemma run_link_consistent (trace : list event) (s : state) :
  run mounted trace = Some s -> link_consistent s.
Proof.
  apply (run_invariant link_consistent).
  - split; [reflexivity | ]. simpl. split; discriminate.
  - intros s0 e s1 Hinv Hstep. exact (step_link_consistent e Hinv Hstep).
Qed.

End Runs.

(** C3, as the code has it.  The component has no state for a finished
    handshake: its guard is on the socket.  In every run, a call issued
    while the socket is not open (the status cell is not [online]) returns
    at once with the not-connected error: no frame is given to the socket
    and no call is left in flight.  A call issued on an open socket while
    no tool is listed sends nothing and leaves nothing in flight either,
    but the error it reports is that the tool is not found. *)
Theorem C3_call_while_not_open_sends_nothing `{RT : Runtime}
    (trace : list event) (s : state) :
  run mounted trace = Some s ->
  (status s <> online ->
   handleCallTool s
   = (Normal tt,
      mkState (status s) (tools s) (selectedTool s) (toolArgs s)
        "" "WebSocket MCP non connecté." false
        (ws s) (socket s) (isOpen s) (timers s)))
  /\ (status s = online -> tools s = JArr [] ->
      handleCallTool s
      = (Normal tt,
         mkState (status s) (tools s) (selectedTool s) (toolArgs s)
           "" "Outil non trouvé." false
           (ws s) (socket s) (isOpen s) (timers s))).
Proof.
  intros Hrun.
  destruct (run_link_consistent trace Hrun) as [Hws Hlink].
  split.
  - intro Hstatus. apply handleCallTool_not_connected.
    unfold not_connected. rewrite Hws.
    destruct (Nat.eqb_spec (readyState (socket s)) 1) as [E | E].
    + contradiction Hstatus. apply Hlink. exact E.
    + reflexivity.
  - intros Hstatus Hnone. apply handleCallTool_unknown.
    + unfold not_connected. rewrite Hws.
      apply Hlink in Hstatus. rewrite Hstatus. reflexivity.
    + rewrite Hnone. reflexivity.
Qed.

(** The tools were listed and one was picked, then the socket closed: the
    call button is there, and the call is refused. *)
Lemma C3_witness :
  handleCallTool Sample.picked_then_closed
  = (Normal tt,
     mkState offline (tools Sample.picked) "check_stock" []
       "" "WebSocket MCP non connecté." false
       (Some TheSocket) (socket Sample.picked_then_closed) true 0).
Proof.
  refine (proj1
    (@C3_call_while_not_open_sends_nothing _
       (Sample.ready ++ [TransportCloses]) Sample.picked_then_closed _) _).
  - vm_compute. reflexivity.
  - discriminate.
Defined.

(** C3 as stated fails: a call goes on the wire before the handshake is
    over.  First run: the tool list arrives while the timer is still
    pending, so [tools/list] has not even been asked, and the call is sent
    behind [initialize].  Second run: both requests are out and the tools
    are listed, but [initialize] was never answered, and the call is
    sent. *)
Lemma C3_counterexample :
  option_map (fun s => (status s, timers s,
                        map (fun f => own_prop f "method") (sent (socket s)),
                        loading s, error s))
    (run mounted
       [TransportOpens; FrameArrives (Parses Sample.two_tools);
        ClicksTool "check_stock"; ClicksCall])
  = Some (online, 1,
          [Some (JStr "initialize"); Some (JStr "tools/call")], true, "") /\
  option_map (fun s => (map (fun f => own_prop f "method") (sent (socket s)),
                        loading s, error s))
    (run mounted (Sample.ready ++ [ClicksCall]))
  = Some ([Some (JStr "initialize"); Some (JStr "tools/list");
           Some (JStr "tools/call")], true, "").
Proof. vm_compute. split; reflexivity. Qed.

Section Requests.
Context `{RT : Runtime}.

(** A request carries its version under [jsonrpc], and has no field
    named [protocol]. *)
Lemma is_request_fields (frame : json) :
  is_request frame = true ->
  own_prop frame "jsonrpc" = Some (JStr "2.0") /\
  own_prop frame "protocol" = None /\
  exists id method params,
    frame = JObj [("jsonrpc", JStr "2.0"); ("id", JStr id);
                  ("method", JStr method); ("params", JObj params)].
Proof.
  unfold is_request.
  destruct frame as [| | | | | fields]; try discriminate.
  destruct fields as [| [k1 [| | | version | |]] fields]; try discriminate.
  destruct fields as [| [k2 [| | | id | |]] fields]; try discriminate.
  destruct fields as [| [k3 [| | | method | |]] fields]; try discriminate.
  destruct fields as [| [k4 [| | | | | params]] fields]; try discriminate.
  destruct fields; try discriminate.
  intro H.
  repeat (apply andb_prop in H; destruct H as [H ?]).
  repeat match goal with
         | E : String.eqb _ _ = true |- _ => apply String.eqb_eq in E; subst
         end.
  split; [reflexivity | ]. split; [reflexivity | ].
  exists id, method, params. reflexivity.
Qed.

Lemma run_sends_requests (trace : list event) (s : state) :
  run mounted trace = Some s ->
  Forall (fun f => is_request f = true) (sent (socket s)).
Proof.
  apply (run_invariant (fun s => Forall (fun f => is_request f = true) (sent (socket s)))).
  - constructor.
  - intros s0 e s1 Hinv Hstep.
    destruct (step_emits _ _ Hstep) as [more [Hsent Hmore]].
    rewrite Hsent. apply Forall_app. split; assumption.
Qed.

End Requests.

(** C9, as the code has it.  Every frame the component hands to the
    socket, in any run, is an object with exactly the fields [jsonrpc],
    [id], [method] and [params], in this order; its version field is named
    [jsonrpc] and holds the string ["2.0"]; it has no field named
    [protocol]; and its method is [initialize], [tools/list] or
    [tools/call]. *)
Theorem C9_requests_carry_jsonrpc_version `{RT : Runtime}
    (trace : list event) (s : state) :
  run mounted trace = Some s ->
  Forall (fun f =>
            is_request f = true /\
            own_prop f "jsonrpc" = Some (JStr "2.0") /\
            own_prop f "protocol" = None /\
            exists id method params,
              f = JObj [("jsonrpc", JStr "2.0"); ("id", JStr id);
                        ("method", JStr method); ("params", JObj params)])
         (sent (socket s)).
Proof.
  intro Hrun.
  apply (Forall_impl _ (P := fun f => is_request f = true)).
  - intros f Hf. split; [exact Hf | apply is_request_fields; exact Hf].
  - apply (run_sends_requests trace Hrun).
Qed.

(** C9 as stated fails: the frame sent when the socket opens has no
    [protocol] field. *)
Lemma C9_counterexample :
  option_map (fun s => map (fun f => (own_prop f "method", own_prop f "protocol"))
                         (sent (socket s)))
    (run mounted [TransportOpens])
  = Some [(Some (JStr "initialize"), None)].
Proof. vm_compute. reflexivity. Qed.

(** The three frames of a session that listed the tools and called one. *)
Lemma C9_witness :
  Forall (fun f =>
            is_request f = true /\
            own_prop f "jsonrpc" = Some (JStr "2.0") /\
            own_prop f "protocol" = None /\
            exists id method params,
              f = JObj [("jsonrpc", JStr "2.0"); ("id", JStr id);
                        ("method", JStr method); ("params", JObj params)])
         [initialize_frame; tools_list_frame; tools_call_frame "check_stock" []].
Proof.
  apply (@C9_requests_carry_jsonrpc_version _ (Sample.ready ++ [ClicksCall])
           Sample.in_flight).
  vm_compute. reflexivity.
Defined.

Section Handshake.
Context `{RT : Runtime}.

Lemma emits_keeps_head (s s' : state) (rest : list json) :
  emits s s' -> sent (socket s) = initialize_frame :: rest ->
  exists rest', sent (socket s') = initialize_frame :: rest'.
Proof.
  intros [more [Hsent _]] Hhead. rewrite Hsent, Hhead.
  exists (rest ++ more). reflexivity.
Qed.

Lemma handleCallTool_not_open (s : state) :
  readyState (socket s) <> 1 -> socket (after handleCallTool s) = socket s.
Proof.
  intro Hrs. unfold after.
  rewrite handleCallTool_not_connected; [reflexivity | ].
  unfold not_connected. destruct (ws s) as [[] |]; [ | reflexivity].
  apply Bool.negb_true_iff. apply Nat.eqb_neq. exact Hrs.
Qed.

Lemma step_initialize_first (s : state) (e : event) (s' : state) :
  initialize_first s -> step s e = Some s' -> initialize_first s'.
Proof.
  intros [[Hnil Hrs] | [rest Hhead]] Hstep.
  - destruct e; simpl in Hstep.
    + destruct (Nat.eqb (readyState (socket s)) 0); [ | discriminate].
      injection Hstep as <-. right. unfold after.
      rewrite onopen_on_open_socket by reflexivity. simpl.
      rewrite Hnil. exists []. reflexivity.
    + destruct (Nat.eqb (readyState (socket s)) 3); [discriminate | ].
      injection Hstep as <-. left. simpl. split; [exact Hnil | discriminate].
    + injection Hstep as <-. left.
      unfold after, socket_onclose, bind, gets, setStatus, modify. simpl.
      destruct (isOpen s); simpl; (split; [exact Hnil | discriminate]).
    + destruct (Nat.eqb_spec (readyState (socket s)) 1); [contradiction | discriminate].
    + destruct (timers s) as [| n]; [discriminate | ].
      injection Hstep as <-. left. unfold after, list_tools_later.
      rewrite socket_send_not_open by exact Hrs. split; assumption.
    + destruct (lists_tool name s); [ | discriminate].
      injection Hstep as <-. left. split; assumption.
    + destruct (String.eqb (selectedTool s) ""); [discriminate | ].
      injection Hstep as <-. left. split; assumption.
    + destruct (String.eqb (selectedTool s) "" || loading s); [discriminate | ].
      injection Hstep as <-. left.
      rewrite (handleCallTool_not_open s Hrs). split; assumption.
  - right. apply (emits_keeps_head (step_emits _ _ Hstep) Hhead).
Qed.

Lemma run_initialize_first (trace : list event) (s : state) :
  run mounted trace = Some s -> initialize_first s.
Proof.
  apply (run_invariant initialize_first).
  - left. split; [reflexivity | discriminate].
  - intros s0 e s1 Hinv Hstep. exact (step_initialize_first e Hinv Hstep).
Qed.

(** A frame whose [result.tools] is truthy replaces the tool list, and
    does nothing else. *)
Lemma onmessage_tools (s : state) (fs : list (string * json)) (r t : json) :
  lookup "result" fs = Some r -> truthy r = true ->
  own_prop r "tools" = Some t -> truthy t = true ->
  socket_onmessage (Parses (JObj fs)) s = (Normal tt, with_tools t s).
Proof.
  intros Hr Tr Ht Tt.
  unfold socket_onmessage, try_catch, onmessage_try, bind, lift. simpl.
  rewrite Hr. unfold and_member, as_truthy at 1. rewrite Tr.
  rewrite (member_of_truthy _ _ Tr), Ht. simpl. rewrite Tt. reflexivity.
Qed.

End Handshake.

(** C6, as the code has it.  In every run: when the transport opens, the
    component marks the session [online] at once, sends [initialize] and
    arms the 200 ms timer; when that timer fires on a socket that is still
    open, [tools/list] is sent, whatever has or has not arrived in between;
    so a [tools/list] on the wire always has [initialize] before it.  The
    tool list is replaced by any frame whose [result.tools] is truthy, and
    that frame changes nothing else. *)
Theorem C6_handshake_follows_the_timer `{RT : Runtime}
    (trace : list event) (s : state) :
  run mounted trace = Some s ->
  (forall s', step s TransportOpens = Some s' ->
      status s' = online /\
      sent (socket s') = sent (socket s) ++ [initialize_frame] /\
      timers s' = S (timers s) /\
      tools s' = tools s)
  /\ (forall s', readyState (socket s) = 1 -> step s TimerFires = Some s' ->
        sent (socket s') = sent (socket s) ++ [tools_list_frame])
  /\ (In tools_list_frame (sent (socket s)) ->
        exists rest, sent (socket s) = initialize_frame :: rest)
  /\ (forall fs r t s',
        lookup "result" fs = Some r -> truthy r = true ->
        own_prop r "tools" = Some t -> truthy t = true ->
        step s (FrameArrives (Parses (JObj fs))) = Some s' ->
        s' = with_tools t s).
Proof.
  intro Hrun. repeat split.
  - simpl in H. destruct (Nat.eqb (readyState (socket s)) 0); [ | discriminate].
    injection H as <-. unfold after.
    rewrite onopen_on_open_socket by reflexivity. reflexivity.
  - simpl in H. destruct (Nat.eqb (readyState (socket s)) 0); [ | discriminate].
    injection H as <-. unfold after.
    rewrite onopen_on_open_socket by reflexivity. reflexivity.
  - simpl in H. destruct (Nat.eqb (readyState (socket s)) 0); [ | discriminate].
    injection H as <-. unfold after.
    rewrite onopen_on_open_socket by reflexivity. reflexivity.
  - simpl in H. destruct (Nat.eqb (readyState (socket s)) 0); [ | discriminate].
    injection H as <-. unfold after.
    rewrite onopen_on_open_socket by reflexivity. reflexivity.
  - intros s' Hrs Hstep. simpl in Hstep.
    destruct (timers s) as [| n]; [discriminate | ].
    injection Hstep as <-. unfold after.
    rewrite list_tools_later_on_open_socket by exact Hrs. reflexivity.
  - intro Hin.
    destruct (run_initialize_first trace Hrun) as [[Hnil _] | Hhead].
    + rewrite Hnil in Hin. contradiction.
    + exact Hhead.
  - intros fs r t s' Hr Tr Ht Tt Hstep. simpl in Hstep.
    destruct (Nat.eqb (readyState (socket s)) 1); [ | discriminate].
    injection Hstep as <-. unfold after.
    rewrite (onmessage_tools s fs Hr Tr Ht Tt). reflexivity.
Qed.

(** Once the socket is open and the timer has fired, [tools/list] is on
    the wire behind [initialize]. *)
Lemma C6_witness :
  exists rest, sent (socket Sample.listing) = initialize_frame :: rest.
Proof.
  refine (proj1 (proj2 (proj2
    (@C6_handshake_follows_the_timer _ [TransportOpens; TimerFires]
       Sample.listing _))) _).
  - vm_compute. reflexivity.
  - vm_compute. right. left. reflexivity.
Defined.

(** C6 as stated fails: with no frame received at all, the session is
    already [online] when the socket opens, before any tool is known, and
    [tools/list] goes out when the timer fires, without an answer to
    [initialize]. *)
Lemma C6_counterexample :
  option_map (fun s => (status s, tools s, sent (socket s)))
    (run mounted [TransportOpens])
  = Some (online, JArr [], [initialize_frame]) /\
  option_map (fun s => sent (socket s))
    (run mounted [TransportOpens; TimerFires])
  = Some [initialize_frame; tools_list_frame].
Proof. vm_compute. split; reflexivity. Qed.

Section Completion.
Context `{RT : Runtime}.

(** A frame whose [result.content] is truthy (and whose [result.tools]
    is not) ends the call in flight, whether its text can be built or
    not. *)
Lemma onmessage_content_clears_loading
    (s : state) (fs : list (string * json)) (r c : json) :
  lookup "result" fs = Some r -> truthy r = true ->
  as_truthy (own_prop r "tools") = None ->
  own_prop r "content" = Some c -> truthy c = true ->
  loading (after (socket_onmessage (Parses (JObj fs))) s) = false.
Proof.
  intros Hr Tr Ht Hc Tc.
  unfold after, socket_onmessage, try_catch, onmessage_try, bind, lift. simpl.
  rewrite Hr. unfold and_member. unfold as_truthy at 1 3. rewrite Tr.
  rewrite !(member_of_truthy _ _ Tr), Ht, Hc. simpl. rewrite Tc.
  destruct (content_text c); reflexivity.
Qed.

(** A frame with a truthy [error] and no [result] ends the call in
    flight and touches neither the response nor the tool list. *)
Lemma onmessage_error_clears_loading
    (s : state) (fs : list (string * json)) (e : json) :
  lookup "result" fs = None ->
  lookup "error" fs = Some e -> truthy e = true ->
  loading (after (socket_onmessage (Parses (JObj fs))) s) = false /\
  tools (after (socket_onmessage (Parses (JObj fs))) s) = tools s /\
  response (after (socket_onmessage (Parses (JObj fs))) s) = response s.
Proof.
  intros Hr He Te.
  unfold after, socket_onmessage, try_catch, onmessage_try, bind, lift. simpl.
  rewrite Hr, He. simpl. rewrite Te.
  destruct (error_text e); repeat split.
Qed.

Lemma call_id_names_the_tool (selected : string) (args : list (string * json)) :
  own_prop (tools_call_frame selected args) "id"
  = Some (JStr ("call_" ++ selected)%string).
Proof. reflexivity. Qed.

End Completion.

(** C1, as the code has it.  A call issued on an open socket for a listed
    tool hands exactly one [tools/call] frame to the socket; its [id] is
    ["call_"] followed by the tool name, so the ids of two calls differ
    exactly when the tool names differ (a second call to the same tool
    reuses the id); the call is in flight as the one [loading] flag, and the
    next frame that carries a [result.content] clears it, whatever [id] or
    other fields that frame has. *)
Theorem C1_call_id_is_the_tool_name `{RT : Runtime} (s : state) (t : json) :
  not_connected s = false ->
  array_find "tools.find" (tools s) (name_is (selectedTool s)) = Normal (Some t) ->
  fst (handleCallTool s) = Normal tt
  /\ sent (socket (after handleCallTool s))
     = sent (socket s) ++ [tools_call_frame (selectedTool s) (toolArgs s)]
  /\ own_prop (tools_call_frame (selectedTool s) (toolArgs s)) "id"
     = Some (JStr ("call_" ++ selectedTool s)%string)
  /\ (forall other args,
        own_prop (tools_call_frame other args) "id"
        = own_prop (tools_call_frame (selectedTool s) (toolArgs s)) "id"
        <-> other = selectedTool s)
  /\ loading (after handleCallTool s) = true
  /\ (forall fs r c,
        lookup "result" fs = Some r -> truthy r = true ->
        as_truthy (own_prop r "tools") = None ->
        own_prop r "content" = Some c -> truthy c = true ->
        loading (after (socket_onmessage (Parses (JObj fs)))
                   (after handleCallTool s)) = false).
Proof.
  intros Hup Hfind. unfold after at 1 2 3.
  rewrite (handleCallTool_sends s Hup Hfind).
  split; [reflexivity | ]. split; [reflexivity | ]. split; [reflexivity | ].
  split.
  - intros other args. rewrite !call_id_names_the_tool. split.
    + intro H. injection H as H. exact H.
    + intros ->. reflexivity.
  - split; [reflexivity | ].
    intros fs r c Hr Tr Ht Hc Tc.
    apply (onmessage_content_clears_loading _ fs Hr Tr Ht Hc Tc).
Qed.

(** The call of [check_stock] of the sample session. *)
Lemma C1_witness :
  sent (socket (after handleCallTool Sample.picked))
  = sent (socket Sample.picked) ++ [tools_call_frame "check_stock" []].
Proof.
  refine (proj1 (proj2
    (@C1_call_id_is_the_tool_name _ Sample.picked
       (JObj [("name", JStr "check_stock");
              ("description", JStr "stock level");
              ("inputSchema",
                JObj [("type", JStr "object");
                      ("properties",
                        JObj [("a", JObj [("type", JStr "number")]);
                              ("b", JObj [("type", JStr "string")])]);
                      ("required", JArr [JStr "a"; JStr "b"])])]) _ _))).
  - vm_compute. reflexivity.
  - vm_compute. reflexivity.
Defined.

(** C1 as stated fails.  First run: two calls to [check_stock] are both
    unanswered (the only frame received in between does not parse) and
    carry the same id.  Second run: the call to [check_stock] is completed
    by a response that bears another id. *)
Lemma C1_counterexample :
  option_map call_ids
    (run mounted
       (Sample.ready ++
        [ClicksCall; FrameArrives (Garbled "Unexpected end of JSON input");
         ClicksCall]))
  = Some [Some (JStr "call_check_stock"); Some (JStr "call_check_stock")] /\
  option_map (fun s => (call_ids s, response s, loading s))
    (run mounted
       (Sample.ready ++
        [ClicksCall;
         FrameArrives (Parses (Sample.success "call_process_payment" "paid"))]))
  = Some ([Some (JStr "call_check_stock")], "paid", false).
Proof. vm_compute. split; reflexivity. Qed.

(** C5, as the code has it.  A call on an open socket for a listed tool
    does not look at the declared schema of the tool: whatever the
    descriptor found, the handler returns normally, the error cell is
    empty, and one [tools/call] frame is sent whose [params] are the tool
    name and the argument map exactly as it stands. *)
Theorem C5_arguments_are_sent_unchecked `{RT : Runtime} (s : state) (t : json) :
  not_connected s = false ->
  array_find "tools.find" (tools s) (name_is (selectedTool s)) = Normal (Some t) ->
  handleCallTool s
  = (Normal tt,
     mkState (status s) (tools s) (selectedTool s) (toolArgs s)
       "" "" true (ws s)
       (mkSocket 1
          (sent (socket s) ++ [tools_call_frame (selectedTool s) (toolArgs s)]))
       (isOpen s) (timers s))
  /\ own_prop (tools_call_frame (selectedTool s) (toolArgs s)) "params"
     = Some (JObj [("name", JStr (selectedTool s));
                   ("arguments", JObj (toolArgs s))]).
Proof.
  intros Hup Hfind. split.
  - apply (handleCallTool_sends s Hup Hfind).
  - reflexivity.
Qed.

(** The sample tool declares [{a: number, b: string}], both required;
    called with no argument, the frame goes out with [arguments: {}]. *)
Lemma C5_witness :
  handleCallTool Sample.picked
  = (Normal tt,
     mkState (status Sample.picked) (tools Sample.picked) "check_stock" []
       "" "" true (ws Sample.picked)
       (mkSocket 1 (sent (socket Sample.picked) ++ [tools_call_frame "check_stock" []]))
       (isOpen Sample.picked) (timers Sample.picked)).
Proof.
  refine (proj1
    (@C5_arguments_are_sent_unchecked _ Sample.picked
       (JObj [("name", JStr "check_stock");
              ("description", JStr "stock level");
              ("inputSchema",
                JObj [("type", JStr "object");
                      ("properties",
                        JObj [("a", JObj [("type", JStr "number")]);
                              ("b", JObj [("type", JStr "string")])]);
                      ("required", JArr [JStr "a"; JStr "b"])])]) _ _)).
  - vm_compute. reflexivity.
  - vm_compute. reflexivity.
Defined.

(** C5 as stated fails: for the tool that requires [{a: number, b:
    string}], the call with [{}] and the call with [{a: "x", b: "y"}] both
    put a frame on the wire and report no error. *)
Lemma C5_counterexample :
  option_map (fun s => (error s, map (fun f => own_prop f "params")
                                   (filter is_call (sent (socket s)))))
    (run mounted (Sample.ready ++ [ClicksCall]))
  = Some ("", [Some (JObj [("name", JStr "check_stock");
                           ("arguments", JObj [])])]) /\
  option_map (fun s => (error s, map (fun f => own_prop f "params")
                                   (filter is_call (sent (socket s)))))
    (run mounted (Sample.ready ++ [TypesArg "a" "x"; TypesArg "b" "y"; ClicksCall]))
  = Some ("", [Some (JObj [("name", JStr "check_stock");
                           ("arguments",
                             JObj [("a", JStr "x"); ("b", JStr "y")])])]).
Proof. vm_compute. split; reflexivity. Qed.

(** C8, as the code has it.  An error that concerns one call (the tool is
    not in the list, or the server answers with an error response) leaves
    the connection status, the tool list and the socket with the frames it
    sent as they were; it clears the one [loading] flag the component has,
    so no call at all is shown as pending afterwards. *)
Theorem C8_local_error_clears_the_shared_flag `{RT : Runtime} (s s' : state) :
  local_error s s' ->
  status s' = status s /\
  tools s' = tools s /\
  socket s' = socket s /\
  loading s' = false.
Proof.
  intros [s0 Hup Hfind | s0 fs e Hr He Te].
  - unfold after. rewrite (handleCallTool_unknown s0 Hup Hfind).
    repeat split.
  - destruct (onmessage_error_clears_loading s0 fs Hr He Te) as [Hl [Ht _]].
    repeat split.
    + apply (onmessage_display_only _ status_display_blind).
    + exact Ht.
    + apply (onmessage_display_only _ socket_display_blind).
    + exact Hl.
Qed.

(** The server refuses the call of the sample session. *)
Lemma C8_witness :
  status (after (socket_onmessage
                   (Parses (Sample.failure "call_check_stock" "out of stock")))
            Sample.in_flight) = online /\
  loading (after (socket_onmessage
                    (Parses (Sample.failure "call_check_stock" "out of stock")))
             Sample.in_flight) = false.
Proof.
  destruct (@C8_local_error_clears_the_shared_flag integer_runtime Sample.in_flight _
              (@tool_invocation_error integer_runtime Sample.in_flight
                 (Sample.failure_fields "call_check_stock" "out of stock")
                 (Sample.refusal "out of stock")
                 eq_refl eq_refl eq_refl))
    as [Hs [_ [_ Hl]]].
  split; [exact Hs | exact Hl].
Defined.

(** C8 as stated fails: with the calls to [check_stock] and to
    [process_payment] both unanswered, the error response to the first
    ends the second as well, and its caller sees the error of the other
    call. *)
Lemma C8_counterexample :
  option_map (fun s => (call_ids s, loading s, error s))
    (run mounted
       (Sample.ready ++
        [ClicksCall; FrameArrives (Garbled "Unexpected end of JSON input");
         ClicksTool "process_payment"; ClicksCall]))
  = Some ([Some (JStr "call_check_stock"); Some (JStr "call_process_payment")],
          true, "") /\
  option_map (fun s => (call_ids s, loading s, error s))
    (run mounted
       (Sample.ready ++
        [ClicksCall; FrameArrives (Garbled "Unexpected end of JSON input");
         ClicksTool "process_payment"; ClicksCall;
         FrameArrives (Parses (Sample.failure "call_check_stock" "out of stock"))]))
  = Some ([Some (JStr "call_check_stock"); Some (JStr "call_process_payment")],
          false, "out of stock").
Proof. vm_compute. split; reflexivity. Qed.

Section Closing.
Context `{RT : Runtime}.

(** [socket.onclose] and [socket.onerror] do not touch [loading]. *)
Lemma onclose_keeps_loading (s : state) :
  loading (after socket_onclose s) = loading s.
Proof.
  unfold after, socket_onclose, bind, gets, setStatus, modify. simpl.
  destruct (isOpen s); reflexivity.
Qed.

Lemma onerror_keeps_loading (s : state) :
  loading (after socket_onerror s) = loading s.
Proof. reflexivity. Qed.

Lemma step_stranded (s : state) (e : event) (s' : state) :
  stranded s -> step s e = Some s' -> stranded s'.
Proof.
  intros [Hrs Hl]. destruct e; simpl; rewrite ?Hrs, ?Hl; simpl; intro H;
    try discriminate.
  - injection H as <-. split; [ | rewrite onclose_keeps_loading; exact Hl].
    unfold after, socket_onclose, bind, gets, setStatus, modify. simpl.
    destruct (isOpen s); reflexivity.
  - destruct (timers s) as [| n]; [discriminate | ].
    injection H as <-. unfold after, list_tools_later.
    rewrite socket_send_not_open by (simpl; rewrite Hrs; discriminate).
    split; assumption.
  - destruct (lists_tool name s); [ | discriminate].
    injection H as <-. split; assumption.
  - destruct (String.eqb (selectedTool s) ""); [discriminate | ].
    injection H as <-. split; assumption.
  - rewrite Bool.orb_true_r in H. discriminate.
Qed.

Lemma stranded_forever (s : state) (trace : list event) (s' : state) :
  stranded s -> run s trace = Some s' -> loading s' = true.
Proof.
  intros Hs Hrun.
  apply (run_invariant stranded s Hs
           (fun s0 e s1 Hinv Hstep => step_stranded e Hinv Hstep) trace Hrun).
Qed.

End Closing.

(** C2 fails on the code.  The session lists its tools, one call is
    issued, and the transport closes before the answer: the status turns
    [offline] and the close is reported in the error cell, but the call
    stays in flight ([loading] is still set: the spinner turns and the call
    button stays disabled), where every other handler that sets the error
    cell for a call also clears [loading]. *)
Theorem C2_close_leaves_the_call_in_flight :
  option_map (fun s => (status s, error s, loading s, call_ids s))
    (run mounted (Sample.ready ++ [ClicksCall; TransportCloses]))
  = Some (offline, "Connexion MCP fermée.", true,
          [Some (JStr "call_check_stock")]).
Proof. vm_compute. reflexivity. Qed.

(** ** The argument map *)

Section ArgumentMap.
Context `{RT : Runtime}.

Lemma lookup_obj_set_same (k : string) (v : json) (fs : list (string * json)) :
  lookup k (obj_set k v fs) = Some v.
Proof.
  induction fs as [| [k0 v0] rest IH]; simpl.
  - rewrite String.eqb_refl. reflexivity.
  - destruct (String.eqb k k0) eqn:E; simpl; rewrite E; [reflexivity | exact IH].
Qed.

Lemma lookup_none_not_in_keys (k : string) (fs : list (string * json)) :
  lookup k fs = None -> ~ In k (map fst fs).
Proof.
  induction fs as [| [k0 v0] rest IH]; simpl; intro H.
  - intros [].
  - intros [E | Hin].
    + subst k0. rewrite String.eqb_refl in H. discriminate.
    + destruct (String.eqb k k0); [discriminate | ]. exact (IH H Hin).
Qed.

(** Writing a key that is there keeps the keys where they are. *)
Lemma keys_obj_set_present (k : string) (v : json) (fs : list (string * json)) :
  lookup k fs <> None -> map fst (obj_set k v fs) = map fst fs.
Proof.
  induction fs as [| [k0 v0] rest IH]; simpl; intro H.
  - contradiction H. reflexivity.
  - destruct (String.eqb k k0) eqn:E; simpl; [reflexivity | ].
    rewrite (IH H). reflexivity.
Qed.

Lemma obj_set_keeps_all (P : string * json -> Prop) (k : string) (v : json)
    (fs : list (string * json)) :
  (forall k', P (k', v)) -> Forall P fs -> Forall P (obj_set k v fs).
Proof.
  intros Hv. induction fs as [| [k0 v0] rest IH]; simpl; intro H.
  - constructor; [apply Hv | constructor].
  - inversion H as [| x l Hx Hl]; subst.
    destruct (String.eqb k k0).
    + constructor; [apply Hv | exact Hl].
    + constructor; [exact Hx | apply IH; exact Hl].
Qed.

(** Where [insert_index] puts the new property: behind array indices that
    are not greater, in front of a greater one or of a key that is no
    array index. *)
Lemma insert_index_place (n : N) (k : string) (v : json) (fs : list (string * json)) :
  exists before behind,
    fs = before ++ behind /\
    insert_index n k v fs = before ++ (k, v) :: behind /\
    Forall (fun kv => exists m, array_index (fst kv) = Some m /\ (m <= n)%N) before /\
    match behind with
    | [] => True
    | (k', _) :: _ =>
        match array_index k' with
        | Some m => (n < m)%N
        | None => True
        end
    end.
Proof.
  induction fs as [| [k0 v0] rest IH]; simpl.
  - exists [], []. repeat split. constructor.
  - destruct (array_index k0) as [m |] eqn:E.
    + destruct (N.ltb_spec n m) as [Hlt | Hge].
      * exists [], ((k0, v0) :: rest). repeat split; [constructor | ].
        rewrite E. exact Hlt.
      * destruct IH as [before [behind [Hfs [Hins [Hb Ha]]]]].
        exists ((k0, v0) :: before), behind. repeat split.
        -- simpl. rewrite Hfs. reflexivity.
        -- simpl. rewrite Hins. reflexivity.
        -- constructor; [exists m; split; [exact E | exact Hge] | exact Hb].
        -- exact Ha.
    + exists [], ((k0, v0) :: rest). repeat split; [constructor | ].
      rewrite E. exact I.
Qed.

Lemma insert_index_permutation (n : N) (k : string) (v : json)
    (fs : list (string * json)) :
  Permutation (insert_index n k v fs) ((k, v) :: fs).
Proof.
  destruct (insert_index_place n k v fs) as [before [behind [Hfs [Hins _]]]].
  rewrite Hins, Hfs. symmetry. apply Permutation_middle.
Qed.

Lemma lookup_app (k : string) (l1 l2 : list (string * json)) :
  lookup k (l1 ++ l2)
  = match lookup k l1 with
    | Some v => Some v
    | None => lookup k l2
    end.
Proof.
  induction l1 as [| [k0 v0] rest IH]; simpl; [reflexivity | ].
  destruct (String.eqb k k0); [reflexivity | exact IH].
Qed.

Lemma lookup_middle_same (k : string) (v : json) (l1 l2 : list (string * json)) :
  lookup k l1 = None -> lookup k (l1 ++ (k, v) :: l2) = Some v.
Proof.
  intro H. rewrite lookup_app, H. simpl. rewrite String.eqb_refl. reflexivity.
Qed.

Lemma lookup_middle_other (k k' : string) (v : json) (l1 l2 : list (string * json)) :
  k' <> k -> lookup k' (l1 ++ (k, v) :: l2) = lookup k' (l1 ++ l2).
Proof.
  intro Hne. rewrite !lookup_app. simpl.
  destruct (String.eqb_spec k' k); [contradiction | reflexivity].
Qed.

(** A new key is put at some place of the list, the rest being kept. *)
Lemma object_with_new (k : string) (v : json) (fs : list (string * json)) :
  lookup k fs = None ->
  exists before behind,
    fs = before ++ behind /\ object_with k v fs = before ++ (k, v) :: behind.
Proof.
  intro Hnew. unfold object_with. rewrite Hnew.
  destruct (array_index k) as [n |].
  - destruct (insert_index_place n k v fs) as [before [behind [Hfs [Hins _]]]].
    exists before, behind. split; assumption.
  - exists fs, []. split; [symmetry; apply app_nil_r | reflexivity].
Qed.

Lemma lookup_object_with_same (k : string) (v : json) (fs : list (string * json)) :
  lookup k (object_with k v fs) = Some v.
Proof.
  destruct (lookup k fs) as [old |] eqn:E.
  - unfold object_with. rewrite E. apply lookup_obj_set_same.
  - destruct (object_with_new k v fs E) as [before [behind [Hfs Hnew]]].
    rewrite Hnew. apply lookup_middle_same.
    rewrite Hfs, lookup_app in E. destruct (lookup k before); [discriminate | reflexivity].
Qed.

Lemma lookup_object_with_other (k k' : string) (v : json) (fs : list (string * json)) :
  k' <> k -> lookup k' (object_with k v fs) = lookup k' fs.
Proof.
  intro Hne. destruct (lookup k fs) as [old |] eqn:E.
  - unfold object_with. rewrite E. apply lookup_obj_set_other. exact Hne.
  - destruct (object_with_new k v fs E) as [before [behind [Hfs Hnew]]].
    rewrite Hnew, Hfs. apply lookup_middle_other. exact Hne.
Qed.

Lemma object_with_permutation (k : string) (v : json) (fs : list (string * json)) :
  lookup k fs = None -> Permutation (object_with k v fs) ((k, v) :: fs).
Proof.
  intro E. destruct (object_with_new k v fs E) as [before [behind [Hfs Hnew]]].
  rewrite Hnew, Hfs. symmetry. apply Permutation_middle.
Qed.

Lemma object_with_keeps_keys_distinct (k : string) (v : json)
    (fs : list (string * json)) :
  NoDup (map fst fs) -> NoDup (map fst (object_with k v fs)).
Proof.
  intro Hnd. destruct (lookup k fs) as [old |] eqn:E.
  - unfold object_with. rewrite E.
    rewrite keys_obj_set_present; [exact Hnd | rewrite E; discriminate].
  - assert (Hperm : Permutation (k :: map fst fs) (map fst (object_with k v fs))).
    { symmetry. apply (Permutation_map fst (object_with_permutation k v fs E)). }
    apply (Permutation_NoDup Hperm).
    constructor; [apply lookup_none_not_in_keys; exact E | exact Hnd].
Qed.

Lemma object_with_keeps_strings (k v : string) (fs : list (string * json)) :
  string_valued fs -> string_valued (object_with k (JStr v) fs).
Proof.
  unfold string_valued. intro H. destruct (lookup k fs) as [old |] eqn:E.
  - unfold object_with. rewrite E. apply obj_set_keeps_all; [ | exact H].
    intro k'. exists v. reflexivity.
  - assert (Hperm : Permutation ((k, JStr v) :: fs) (object_with k (JStr v) fs)).
    { symmetry. apply (object_with_permutation k (JStr v) fs E). }
    apply (Permutation_Forall Hperm).
    constructor; [exists v; reflexivity | exact H].
Qed.

(** An array index goes to the front: the map [{b: "x"}] with ["1"]
    written has the keys [1, b]. *)
Example object_with_array_index :
  object_with "1" (JStr "v") [("b", JStr "x")]
  = [("1", JStr "v"); ("b", JStr "x")]
  /\ object_with "10" (JStr "w") [("2", JStr "u"); ("b", JStr "x")]
     = [("2", JStr "u"); ("10", JStr "w"); ("b", JStr "x")]
  /\ object_with "01" (JStr "w") [("2", JStr "u"); ("b", JStr "x")]
     = [("2", JStr "u"); ("b", JStr "x"); ("01", JStr "w")].
Proof. repeat split. Qed.

End ArgumentMap.

(** X1.  [handleArgChange] writes one key of the argument map: after it the
    key reads back the value given and every other key reads what it read
    before.  A key that was there keeps its place, and the keys are as they
    were.  A new key is added once: one that is no array index comes last;
    one that is an array index comes behind the leading array indices that
    are not greater and in front of everything else, as JavaScript orders
    the properties of an object.  Keys that were distinct stay distinct,
    and no other cell of the component changes. *)
Theorem X1_arg_change_writes_one_key `{RT : Runtime}
    (s : state) (key : string) (value : json) :
  fst (handleArgChange key value s) = Normal tt
  /\ lookup key (toolArgs (after (handleArgChange key value) s)) = Some value
  /\ (forall other, other <> key ->
        lookup other (toolArgs (after (handleArgChange key value) s))
        = lookup other (toolArgs s))
  /\ (lookup key (toolArgs s) <> None ->
      map fst (toolArgs (after (handleArgChange key value) s))
      = map fst (toolArgs s))
  /\ (lookup key (toolArgs s) = None -> array_index key = None ->
      toolArgs (after (handleArgChange key value) s)
      = toolArgs s ++ [(key, value)])
  /\ (forall n, lookup key (toolArgs s) = None -> array_index key = Some n ->
      exists before behind,
        toolArgs s = before ++ behind /\
        toolArgs (after (handleArgChange key value) s)
        = before ++ (key, value) :: behind /\
        Forall (fun kv => exists m, array_index (fst kv) = Some m /\ (m <= n)%N)
          before /\
        match behind with
        | [] => True
        | (k', _) :: _ =>
            match array_index k' with
            | Some m => (n < m)%N
            | None => True
            end
        end)
  /\ (NoDup (map fst (toolArgs s)) ->
      NoDup (map fst (toolArgs (after (handleArgChange key value) s))))
  /\ with_toolArgs (toolArgs s) (after (handleArgChange key value) s) = s.
Proof.
  split; [reflexivity | ].
  split; [apply lookup_object_with_same | ].
  split; [intros other Hne; apply lookup_object_with_other; exact Hne | ].
  split.
  { intro Hthere. simpl. unfold object_with.
    destruct (lookup key (toolArgs s)) eqn:E; [ | contradiction Hthere; reflexivity].
    apply keys_obj_set_present. rewrite E. discriminate. }
  split.
  { intros Hnew Hname. simpl. unfold object_with. rewrite Hnew, Hname. reflexivity. }
  split.
  { intros n Hnew Hidx. simpl. unfold object_with. rewrite Hnew, Hidx.
    apply insert_index_place. }
  split; [apply object_with_keeps_keys_distinct | ].
  destruct s. reflexivity.
Qed.

(** ** What a call can do *)

Section CallOutcomes.
Context `{RT : Runtime}.

(** [tools.find] throws: the handler stops there, with the call marked in
    flight and nothing sent. *)
Lemma handleCallTool_throws (s : state) (e : js_exn) :
  not_connected s = false ->
  array_find "tools.find" (tools s) (name_is (selectedTool s)) = Throw e ->
  handleCallTool s
  = (Throw e,
     mkState (status s) (tools s) (selectedTool s) (toolArgs s)
       "" "" true (ws s) (socket s) (isOpen s) (timers s)).
Proof.
  intros Hup Hfind.
  unfold handleCallTool, bind, gets, lift, setLoading, setResponse,
    setError, modify. cbv beta iota.
  rewrite not_connected_after_reset, Hup. cbn [tools selectedTool with_error
    with_response with_loading toolArgs].
  rewrite Hfind. reflexivity.
Qed.

Lemma connected_is_open (s : state) :
  not_connected s = false -> readyState (socket s) = 1.
Proof.
  unfold not_connected. destruct (ws s) as [[] |]; [ | discriminate].
  intro H. apply Bool.negb_false_iff in H. apply Nat.eqb_eq in H. exact H.
Qed.

Lemma handleCallTool_outcome (s : state) : call_outcome s (handleCallTool s).
Proof.
  destruct (not_connected s) eqn:Hconn.
  - rewrite (handleCallTool_not_connected s Hconn). constructor. exact Hconn.
  - pose proof (connected_is_open s Hconn) as Hrs.
    destruct (array_find "tools.find" (tools s) (name_is (selectedTool s)))
      as [[t |] | e] eqn:Hfind.
    + rewrite (handleCallTool_sends s Hconn Hfind). constructor. exact Hrs.
    + rewrite (handleCallTool_unknown s Hconn Hfind). constructor. exact Hrs.
    + rewrite (handleCallTool_throws s Hconn Hfind). constructor. exact Hrs.
Qed.

End CallOutcomes.

(** X2.  Whatever the state, [handleCallTool] erases the response shown
    before, leaves the status, the tool list, the selection, the argument
    map, [ws] and the timers alone, and hands the socket at most one frame.
    When it returns normally, either the call is in flight with an empty
    error and exactly one [tools/call] frame more on an open socket, or the
    call is refused: [loading] is cleared, the error cell holds one of the
    two refusal messages and the socket is untouched. *)
Theorem X2_call_sends_at_most_one_frame `{RT : Runtime} (s : state) :
  response (after handleCallTool s) = ""
  /\ status (after handleCallTool s) = status s
  /\ tools (after handleCallTool s) = tools s
  /\ selectedTool (after handleCallTool s) = selectedTool s
  /\ toolArgs (after handleCallTool s) = toolArgs s
  /\ ws (after handleCallTool s) = ws s
  /\ timers (after handleCallTool s) = timers s
  /\ (sent (socket (after handleCallTool s)) = sent (socket s)
      \/ sent (socket (after handleCallTool s))
         = sent (socket s) ++ [tools_call_frame (selectedTool s) (toolArgs s)])
  /\ (fst (handleCallTool s) = Normal tt ->
      (loading (after handleCallTool s) = true
       /\ error (after handleCallTool s) = ""
       /\ readyState (socket s) = 1
       /\ sent (socket (after handleCallTool s))
          = sent (socket s) ++ [tools_call_frame (selectedTool s) (toolArgs s)])
      \/ (loading (after handleCallTool s) = false
          /\ (error (after handleCallTool s) = "WebSocket MCP non connecté."
              \/ error (after handleCallTool s) = "Outil non trouvé.")
          /\ socket (after handleCallTool s) = socket s)).
Proof.
  unfold after.
  destruct (handleCallTool_outcome s) as [Hd | Hrs | Hrs | e Hrs]; simpl;
    repeat (split; [reflexivity | ]).
  - split; [left; reflexivity | ]. intros _. right.
    split; [reflexivity | ]. split; [left; reflexivity | reflexivity].
  - split; [left; reflexivity | ]. intros _. right.
    split; [reflexivity | ]. split; [right; reflexivity | reflexivity].
  - split; [right; reflexivity | ]. intros _. left.
    repeat split. exact Hrs.
  - split; [left; reflexivity | ]. intro H. discriminate H.
Qed.

(** ** What is on the wire *)

Section WireFacts.
Context `{RT : Runtime}.

Lemma step_wire_ok (s : state) (e : event) (s' : state) :
  wire_ok s -> step s e = Some s' -> wire_ok s'.
Proof.
  intros [Hargs Hsent]. destruct e; simpl; intro H.
  - destruct (Nat.eqb (readyState (socket s)) 0); [ | discriminate].
    injection H as <-. unfold after.
    rewrite onopen_on_open_socket by reflexivity.
    split; [exact Hargs | ]. simpl.
    apply Forall_app. split; [exact Hsent | ].
    constructor; [left; reflexivity | constructor].
  - destruct (Nat.eqb (readyState (socket s)) 3); [discriminate | ].
    injection H as <-. split; assumption.
  - injection H as <-.
    unfold after, socket_onclose, bind, gets, setStatus, modify. simpl.
    destruct (isOpen s); split; assumption.
  - destruct (Nat.eqb (readyState (socket s)) 1); [ | discriminate].
    injection H as <-. unfold wire_ok, after.
    rewrite (onmessage_display_only text toolArgs_display_blind s).
    rewrite (onmessage_display_only text socket_display_blind s).
    split; assumption.
  - destruct (timers s) as [| n]; [discriminate | ].
    injection H as <-. unfold after, list_tools_later, socket_send. simpl.
    destruct (readyState (socket s)) as [| [| k]]; simpl;
      try (split; assumption).
    split; [exact Hargs | ].
    apply Forall_app. split; [exact Hsent | ].
    constructor; [right; left; reflexivity | constructor].
  - destruct (lists_tool name s); [ | discriminate].
    injection H as <-. split; assumption.
  - destruct (String.eqb (selectedTool s) ""); [discriminate | ].
    injection H as <-. split; [ | exact Hsent]. simpl.
    destruct Hargs as [Hnd Hstr]. split.
    + apply object_with_keeps_keys_distinct. exact Hnd.
    + apply object_with_keeps_strings. exact Hstr.
  - destruct (String.eqb_spec (selectedTool s) "") as [| Hsel]; [discriminate | ].
    destruct (loading s); [discriminate | ]. simpl in H.
    injection H as <-. unfold after.
    destruct (handleCallTool_outcome s) as [Hd | Hrs | Hrs | e Hrs]; simpl;
      try (split; assumption).
    split; [exact Hargs | ].
    apply Forall_app. split; [exact Hsent | ].
    constructor; [ | constructor].
    right. right. exists (selectedTool s), (toolArgs s).
    repeat split; try assumption; apply Hargs.
Qed.

End WireFacts.

(** X3.  In every run in which each tool list received is an array of
    tools named by strings, each frame on the wire is the [initialize]
    frame, the [tools/list] frame, or a [tools/call] frame that names a
    tool (the name is not empty) and whose arguments have each key once and
    only string values: what the user typed goes out as typed, also for a
    field the schema declares a number. *)
Theorem X3_frames_on_the_wire `{RT : Runtime} (trace : list event) (s : state) :
  run mounted trace = Some s ->
  forallb typed_event trace = true ->
  Forall written_frame (sent (socket s)) /\ typed_args (toolArgs s).
Proof.
  intros Hrun _.
  assert (H : wire_ok s).
  { apply (run_invariant wire_ok mounted) with (trace := trace).
    - split; [split; constructor | constructor].
    - intros s0 e s1 Hinv Hstep. exact (step_wire_ok e Hinv Hstep).
    - exact Hrun. }
  destruct H as [Hargs Hsent]. split; assumption.
Qed.

(** The session that typed [a = 12] and called [check_stock]. *)
Lemma X3_witness :
  Forall written_frame
    [initialize_frame; tools_list_frame;
     tools_call_frame "check_stock" [("a", JStr "12")]]
  /\ typed_args [("a", JStr "12")].
Proof.
  refine (@X3_frames_on_the_wire integer_runtime
            (Sample.ready ++ [TypesArg "a" "12"; ClicksCall])
            (mkState online (tools Sample.picked) "check_stock" [("a", JStr "12")]
               "" "" true (Some TheSocket)
               (mkSocket 1
                  [initialize_frame; tools_list_frame;
                   tools_call_frame "check_stock" [("a", JStr "12")]])
               true 0) _ _).
  - vm_compute. reflexivity.
  - vm_compute. reflexivity.
Defined.

(** X4.  Picking another tool in the list keeps the argument map, the
    response and the error as they are (only [handleToolChange], which no
    element of the page calls, would clear them): the arguments typed for
    the tool selected before go out with the call of the newly selected
    tool. *)
Theorem X4_arguments_survive_a_tool_switch `{RT : Runtime}
    (s s1 s2 : state) (name : string) (t : json) :
  step s (ClicksTool name) = Some s1 ->
  step s1 ClicksCall = Some s2 ->
  not_connected s = false ->
  array_find "tools.find" (tools s) (name_is name) = Normal (Some t) ->
  s1 = with_selectedTool name s
  /\ toolArgs s1 = toolArgs s
  /\ sent (socket s2) = sent (socket s) ++ [tools_call_frame name (toolArgs s)]
  /\ toolArgs (after (handleToolChange name) s) = [].
Proof.
  intros Hpick Hcall Hconn Hfind. simpl in Hpick.
  destruct (lists_tool name s); [ | discriminate].
  injection Hpick as <-.
  split; [reflexivity | ]. split; [reflexivity | ].
  split; [ | reflexivity].
  simpl in Hcall.
  destruct (String.eqb name "" || loading s); [discriminate | ].
  injection Hcall as <-. unfold after at 1.
  rewrite (@handleCallTool_sends _ (after (setSelectedTool name) s) t Hconn Hfind).
  reflexivity.
Qed.

(** In the sample session: [a = 12] is typed for [check_stock], then
    [process_payment] is picked and called. *)
Lemma X4_witness :
  sent (socket Demo.switched_call)
  = sent (socket Demo.typed)
    ++ [tools_call_frame "process_payment" [("a", JStr "12")]].
Proof.
  refine (proj1 (proj2 (proj2
    (@X4_arguments_survive_a_tool_switch integer_runtime
       Demo.typed Demo.switched Demo.switched_call "process_payment"
       (JObj [("name", JStr "process_payment");
              ("description", JStr "payment");
              ("inputSchema", JObj [("type", JStr "object")])])
       _ _ _ _)))).
  - vm_compute. reflexivity.
  - vm_compute. reflexivity.
  - vm_compute. reflexivity.
  - vm_compute. reflexivity.
Defined.

(** ** What a frame shows *)

Section Shown.
Context `{RT : Runtime}.

Lemma map_text_of_items (items : list json) (texts : list (option string)) :
  Forall2 has_text items texts ->
  map_throwing (fun c => member (Some c) "text") items
  = Normal (map (option_map JStr) texts).
Proof.
  induction 1 as [| item text items texts [Hnn Htext] _ IH]; simpl.
  - reflexivity.
  - destruct item; try contradiction; simpl in *; rewrite ?Htext, IH;
      try reflexivity; destruct text; try discriminate; reflexivity.
Qed.

Lemma join_of_texts (sep : string) (texts : list (option string)) :
  join sep (map (option_map JStr) texts)
  = Normal (String.concat sep (map text_or_empty texts)).
Proof.
  induction texts as [| t rest IH]; simpl; [reflexivity | ].
  destruct rest as [| t' rest'].
  - destruct t; reflexivity.
  - rewrite IH. destruct t; reflexivity.
Qed.

Lemma content_text_of_items (items : list json) (texts : list (option string)) :
  Forall2 has_text items texts ->
  content_text (JArr items)
  = Normal (String.concat (String (Ascii.ascii_of_nat 10) "")
              (map text_or_empty texts)).
Proof.
  intro H. unfold content_text, array_map.
  rewrite (map_text_of_items H). simpl cbind. apply join_of_texts.
Qed.

Lemma append_empty (x : string) : (x ++ "")%string = x.
Proof. induction x as [| c rest IH]; simpl; [reflexivity | rewrite IH; reflexivity]. Qed.

End Shown.

(** X5.  A frame whose [result.content] is an array of items, none of
    them [null] (and whose [result.tools] is not truthy), shows as response
    the [text] strings of the items joined by a line feed, an item without
    [text] counting as the empty string, and ends the call in flight;
    nothing else changes, not even the error cell when the frame carries an
    [error] as well. *)
Theorem X5_response_is_the_joined_texts `{RT : Runtime}
    (s : state) (fs : list (string * json)) (r : json)
    (items : list json) (texts : list (option string)) :
  lookup "result" fs = Some r -> truthy r = true ->
  as_truthy (own_prop r "tools") = None ->
  own_prop r "content" = Some (JArr items) ->
  Forall2 has_text items texts ->
  socket_onmessage (Parses (JObj fs)) s
  = (Normal tt,
     with_loading false
       (with_response
          (String.concat (String (Ascii.ascii_of_nat 10) "")
             (map text_or_empty texts)) s)).
Proof.
  intros Hr Tr Ht Hc Hitems.
  unfold socket_onmessage, try_catch, onmessage_try, bind, lift. simpl.
  rewrite Hr. unfold and_member. unfold as_truthy at 1 3. rewrite Tr.
  rewrite !(member_of_truthy _ _ Tr), Ht, Hc. simpl.
  rewrite (content_text_of_items Hitems). reflexivity.
Qed.

(** A response of two text items, the second without [text]. *)
Lemma X5_witness :
  response
    (after (socket_onmessage
              (Parses (JObj [("id", JStr "call_check_stock");
                             ("result",
                               JObj [("content",
                                       JArr [Sample.text_item "in stock";
                                             JObj [("type", JStr "image")]])])])))
       Sample.in_flight)
  = String.concat (String (Ascii.ascii_of_nat 10) "") ["in stock"; ""].
Proof.
  unfold after.
  rewrite (@X5_response_is_the_joined_texts integer_runtime Sample.in_flight
             [("id", JStr "call_check_stock");
              ("result",
                JObj [("content",
                        JArr [Sample.text_item "in stock";
                              JObj [("type", JStr "image")]])])]
             (JObj [("content",
                      JArr [Sample.text_item "in stock";
                            JObj [("type", JStr "image")]])])
             [Sample.text_item "in stock"; JObj [("type", JStr "image")]]
             [Some "in stock"; None]
             eq_refl eq_refl eq_refl eq_refl).
  - reflexivity.
  - constructor; [split; [discriminate | reflexivity] | ].
    constructor; [split; [discriminate | reflexivity] | constructor].
Defined.

(** X6.  A frame without [result] whose [error] is an object shows
    [error.message], followed by [": "] and [error.data] when [data] is a
    string that is not empty; a missing [message] shows as the word
    [undefined]; in each case the call in flight is ended and nothing but
    the error cell and [loading] changes. *)
Theorem X6_error_text `{RT : Runtime}
    (s : state) (fs ef : list (string * json)) :
  lookup "result" fs = None ->
  lookup "error" fs = Some (JObj ef) ->
  (forall m, lookup "message" ef = Some (JStr m) -> lookup "data" ef = None ->
     socket_onmessage (Parses (JObj fs)) s
     = (Normal tt, with_loading false (with_error m s)))
  /\ (forall m d, lookup "message" ef = Some (JStr m) ->
        lookup "data" ef = Some (JStr d) -> d <> "" ->
        socket_onmessage (Parses (JObj fs)) s
        = (Normal tt, with_loading false (with_error (m ++ ": " ++ d)%string s)))
  /\ (lookup "message" ef = None -> lookup "data" ef = None ->
        socket_onmessage (Parses (JObj fs)) s
        = (Normal tt, with_loading false (with_error "undefined" s))).
Proof.
  intros Hr He.
  assert (Hgo : forall text,
             error_text (JObj ef) = Normal text ->
             socket_onmessage (Parses (JObj fs)) s
             = (Normal tt, with_loading false (with_error text s))).
  { intros text Htext.
    unfold socket_onmessage, try_catch, onmessage_try, bind, lift, JSON_parse.
    cbn [member own_prop]. rewrite Hr. cbn [and_member as_truthy].
    rewrite He. cbn [as_truthy truthy]. rewrite Htext. reflexivity. }
  repeat split.
  - intros m Hm Hd. apply Hgo. unfold error_text. simpl.
    rewrite Hm, Hd. simpl. rewrite append_empty. reflexivity.
  - intros m d Hm Hd Hne. apply Hgo. unfold error_text. simpl.
    rewrite Hm, Hd. simpl.
    destruct (String.eqb_spec d "") as [E | _]; [contradiction | ].
    reflexivity.
  - intros Hm Hd. apply Hgo. unfold error_text. simpl.
    rewrite Hm, Hd. reflexivity.
Qed.

(** The refusal of the sample session, with a detail. *)
Lemma X6_witness :
  error
    (after (socket_onmessage
              (Parses (JObj [("id", JStr "call_check_stock");
                             ("error",
                               JObj [("message", JStr "refused");
                                     ("data", JStr "no stock")])])))
       Sample.in_flight)
  = "refused: no stock".
Proof.
  unfold after.
  rewrite (proj1 (proj2
    (@X6_error_text integer_runtime Sample.in_flight
       [("id", JStr "call_check_stock");
        ("error", JObj [("message", JStr "refused"); ("data", JStr "no stock")])]
       [("message", JStr "refused"); ("data", JStr "no stock")]
       eq_refl eq_refl)) "refused" "no stock" eq_refl eq_refl).
  - reflexivity.
  - discriminate.
Defined.

Section Reported.
Context `{RT : Runtime}.

Lemma map_text_hits_null (items : list json) :
  In JNull items ->
  map_throwing (fun c => member (Some c) "text") items
  = Throw (TypeError_null_read "text").
Proof.
  induction items as [| item rest IH]; [intros [] | intros [E | Hin]].
  - subst item. reflexivity.
  - cbn [map_throwing]. rewrite (IH Hin). destruct item; reflexivity.
Qed.

Lemma onmessage_content_throws
    (s : state) (fs : list (string * json)) (r c : json) (e : js_exn) :
  lookup "result" fs = Some r -> truthy r = true ->
  as_truthy (own_prop r "tools") = None ->
  own_prop r "content" = Some c -> truthy c = true ->
  content_text c = Throw e ->
  socket_onmessage (Parses (JObj fs)) s = reported e s.
Proof.
  intros Hr Tr Ht Hc Tc Hthrow.
  unfold socket_onmessage, try_catch, onmessage_try, bind, lift. simpl.
  rewrite Hr. unfold and_member. unfold as_truthy at 1 3. rewrite Tr.
  rewrite !(member_of_truthy _ _ Tr), Ht, Hc. simpl. rewrite Tc, Hthrow.
  reflexivity.
Qed.

End Reported.

(** X7.  What is thrown while a frame is handled is caught and shown as a
    parse error, with the call in flight ended and the response left as it
    was: so it is for the frame [null], for a [result.content] that is
    truthy but not an array, and for a [result.content] array with a [null]
    item. *)
Theorem X7_malformed_response_is_reported `{RT : Runtime} (s : state) :
  socket_onmessage (Parses JNull) s
  = reported (TypeError_null_read "result") s
  /\ (forall fs r c,
        lookup "result" fs = Some r -> truthy r = true ->
        as_truthy (own_prop r "tools") = None ->
        own_prop r "content" = Some c -> truthy c = true ->
        (forall items, c <> JArr items) ->
        socket_onmessage (Parses (JObj fs)) s
        = reported (TypeError_not_callable "data.result.content.map") s)
  /\ (forall fs r items,
        lookup "result" fs = Some r -> truthy r = true ->
        as_truthy (own_prop r "tools") = None ->
        own_prop r "content" = Some (JArr items) ->
        In JNull items ->
        socket_onmessage (Parses (JObj fs)) s
        = reported (TypeError_null_read "text") s).
Proof.
  split; [reflexivity | ]. split.
  - intros fs r c Hr Tr Ht Hc Tc Hna.
    apply (onmessage_content_throws s fs Hr Tr Ht Hc Tc).
    destruct c; try reflexivity. contradiction (Hna items eq_refl).
  - intros fs r items Hr Tr Ht Hc Hin.
    apply (onmessage_content_throws s fs Hr Tr Ht Hc eq_refl).
    unfold content_text, array_map. rewrite (map_text_hits_null items Hin).
    reflexivity.
Qed.

(** X8.  A frame does one of four things, which depend on the frame and
    not on the state: it replaces the tool list, or shows a response and
    ends the call, or shows an error and ends the call, or nothing.  So a
    frame delivered twice leaves the component as the frame delivered
    once. *)
Theorem X8_frame_effect_is_idempotent `{RT : Runtime} (text : frame_text) :
  ((exists t, forall s, socket_onmessage text s = (Normal tt, with_tools t s))
   \/ (exists r, forall s,
         socket_onmessage text s
         = (Normal tt, with_loading false (with_response r s)))
   \/ (exists e, forall s,
         socket_onmessage text s
         = (Normal tt, with_loading false (with_error e s)))
   \/ (forall s, socket_onmessage text s = (Normal tt, s)))
  /\ (forall s,
        after (socket_onmessage text) (after (socket_onmessage text) s)
        = after (socket_onmessage text) s).
Proof.
  assert (Hkind :
    (exists t, forall s, socket_onmessage text s = (Normal tt, with_tools t s))
    \/ (exists r, forall s,
          socket_onmessage text s
          = (Normal tt, with_loading false (with_response r s)))
    \/ (exists e, forall s,
          socket_onmessage text s
          = (Normal tt, with_loading false (with_error e s)))
    \/ (forall s, socket_onmessage text s = (Normal tt, s))).
  { unfold socket_onmessage, try_catch, onmessage_try, bind, lift, setTools,
      setResponse, setError, setLoading, modify, ret.
    cbv beta iota.
    destruct (JSON_parse text) as [data | e0];
      [ | right; right; left; eexists; intro s; reflexivity].
    destruct (member (Some data) "result") as [result | e1];
      [ | right; right; left; eexists; intro s; reflexivity].
    destruct (and_member result "tools") as [listed | e2];
      [ | right; right; left; eexists; intro s; reflexivity].
    destruct (as_truthy listed) as [new_tools |];
      [left; eexists; intro s; reflexivity | ].
    destruct (and_member result "content") as [content | e3];
      [ | right; right; left; eexists; intro s; reflexivity].
    destruct (as_truthy content) as [c |].
    - destruct (content_text c) as [shown | e4].
      + right; left; eexists; intro s; reflexivity.
      + right; right; left; eexists; intro s; reflexivity.
    - destruct (member (Some data) "error") as [err | e5];
        [ | right; right; left; eexists; intro s; reflexivity].
      destruct (as_truthy err) as [e |].
      + destruct (error_text e) as [shown | e6];
          right; right; left; eexists; intro s; reflexivity.
      + right; right; right. intro s. reflexivity. }
  split; [exact Hkind | ].
  intro s. unfold after.
  destruct Hkind as [[t H] | [[r H] | [[e H] | H]]]; rewrite !H; reflexivity.
Qed.

(** ** The life of the connection *)

Section Lifetime.
Context `{RT : Runtime}.

Lemma not_connected_when_closed (s : state) :
  readyState (socket s) <> 1 -> not_connected s = true.
Proof.
  intro Hrs. unfold not_connected. destruct (ws s) as [[] |]; [ | reflexivity].
  apply Bool.negb_true_iff. apply Nat.eqb_neq. exact Hrs.
Qed.

Lemma step_closed_for_good (s0 s : state) (e : event) (s' : state) :
  closed_for_good s0 s -> step s e = Some s' -> closed_for_good s0 s'.
Proof.
  intros [Hrs [Hst [Hsent Htools]]]. destruct e; simpl; rewrite ?Hrs; simpl;
    intro H; try discriminate.
  - injection H as <-.
    unfold after, socket_onclose, bind, gets, setStatus, modify. simpl.
    destruct (isOpen s); repeat split; assumption.
  - destruct (timers s) as [| n]; [discriminate | ].
    injection H as <-. unfold after, list_tools_later.
    rewrite socket_send_not_open by (simpl; rewrite Hrs; discriminate).
    repeat split; assumption.
  - destruct (lists_tool name s); [ | discriminate].
    injection H as <-. repeat split; assumption.
  - destruct (String.eqb (selectedTool s) ""); [discriminate | ].
    injection H as <-. repeat split; assumption.
  - destruct (String.eqb (selectedTool s) "" || loading s); [discriminate | ].
    injection H as <-. unfold after.
    rewrite handleCallTool_not_connected
      by (apply not_connected_when_closed; rewrite Hrs; discriminate).
    repeat split; assumption.
Qed.

Lemma count_after_append (m : string) (frames : list json) (f : json) :
  length (filter (method_is m) (frames ++ [f]))
  = length (filter (method_is m) frames) + (if method_is m f then 1 else 0).
Proof.
  rewrite filter_app, length_app. simpl.
  destruct (method_is m f); reflexivity.
Qed.

Lemma step_handshake_once (s : state) (e : event) (s' : state) :
  handshake_once s -> step s e = Some s' -> handshake_once s'.
Proof.
  unfold handshake_once, count_method.
  intros [H0 [H1 H2]]. destruct e; simpl; intro H.
  - destruct (Nat.eqb_spec (readyState (socket s)) 0) as [E | _]; [ | discriminate].
    injection H as <-. unfold after.
    rewrite onopen_on_open_socket by reflexivity. simpl.
    rewrite !count_after_append. simpl. specialize (H0 E).
    split; [discriminate | ]. lia.
  - destruct (Nat.eqb (readyState (socket s)) 3); [discriminate | ].
    injection H as <-. simpl. split; [discriminate | ]. split; assumption.
  - injection H as <-.
    unfold after, socket_onclose, bind, gets, setStatus, modify. simpl.
    destruct (isOpen s); simpl; (split; [discriminate | ]; split; assumption).
  - destruct (Nat.eqb (readyState (socket s)) 1); [ | discriminate].
    injection H as <-. unfold after.
    rewrite (onmessage_display_only text socket_display_blind s).
    rewrite (onmessage_display_only text timers_display_blind s).
    split; [exact H0 | ]. split; assumption.
  - destruct (timers s) as [| n] eqn:Et; [discriminate | ].
    injection H as <-. unfold after, list_tools_later, socket_send. simpl.
    destruct (readyState (socket s)) as [| [| k]] eqn:Er; simpl.
    + split; [intros _; apply H0; reflexivity | ]. split; [exact H1 | lia].
    + rewrite !count_after_append. simpl.
      split; [discriminate | ]. lia.
    + split; [intro Hx; simpl in Hx; rewrite Er in Hx; discriminate Hx | ].
      split; [exact H1 | lia].
  - destruct (lists_tool name s); [ | discriminate].
    injection H as <-. simpl. split; [exact H0 | ]. split; assumption.
  - destruct (String.eqb (selectedTool s) ""); [discriminate | ].
    injection H as <-. simpl. split; [exact H0 | ]. split; assumption.
  - destruct (String.eqb (selectedTool s) "" || loading s); [discriminate | ].
    injection H as <-. unfold after.
    destruct (handleCallTool_outcome s) as [Hd | Hrs | Hrs | e Hrs]; simpl;
      try (split; [exact H0 | ]; split; assumption).
    rewrite !count_after_append. simpl.
    split; [discriminate | ]. lia.
Qed.

Lemma step_opened_iff_sent (s : state) (e : event) (s' : state) :
  opened_iff_sent s -> step s e = Some s' -> opened_iff_sent s'.
Proof.
  unfold opened_iff_sent.
  intros [Hiff Hopen]. destruct e; simpl; intro H.
  - destruct (Nat.eqb (readyState (socket s)) 0); [ | discriminate].
    injection H as <-. unfold after.
    rewrite onopen_on_open_socket by reflexivity. simpl.
    split; [ | reflexivity]. split; [ | reflexivity].
    intros _ Habs. apply app_eq_nil in Habs. destruct Habs as [_ Habs].
    discriminate Habs.
  - destruct (Nat.eqb (readyState (socket s)) 3); [discriminate | ].
    injection H as <-. simpl. split; [exact Hiff | discriminate].
  - injection H as <-.
    unfold after, socket_onclose, bind, gets, setStatus, modify. simpl.
    destruct (isOpen s) eqn:Eo; simpl; rewrite ?Eo;
      (split; [exact Hiff | discriminate]).
  - destruct (Nat.eqb (readyState (socket s)) 1); [ | discriminate].
    injection H as <-. unfold after.
    rewrite (onmessage_display_only text socket_display_blind s).
    rewrite (onmessage_display_only text isOpen_display_blind s).
    split; assumption.
  - destruct (timers s) as [| n]; [discriminate | ].
    injection H as <-. unfold after, list_tools_later, socket_send. simpl.
    destruct (readyState (socket s)) as [| [| k]] eqn:Er; simpl.
    + split; [exact Hiff | ].
      intro Hx. simpl in Hx. rewrite Er in Hx. discriminate Hx.
    + split; [ | intros _; exact (Hopen eq_refl)]. rewrite (Hopen eq_refl).
      split; [ | reflexivity].
      intros _ Habs. apply app_eq_nil in Habs. destruct Habs as [_ Habs].
      discriminate Habs.
    + split; [exact Hiff | ].
      intro Hx. simpl in Hx. rewrite Er in Hx. discriminate Hx.
  - destruct (lists_tool name s); [ | discriminate].
    injection H as <-. split; assumption.
  - destruct (String.eqb (selectedTool s) ""); [discriminate | ].
    injection H as <-. split; assumption.
  - destruct (String.eqb (selectedTool s) "" || loading s); [discriminate | ].
    injection H as <-. unfold after.
    destruct (handleCallTool_outcome s) as [Hd | Hrs | Hrs | e Hrs]; simpl;
      try (split; assumption).
    split; [ | intros _; exact (Hopen Hrs)]. rewrite (Hopen Hrs).
    split; [ | reflexivity].
    intros _ Habs. apply app_eq_nil in Habs. destruct Habs as [_ Habs].
    discriminate Habs.
Qed.

End Lifetime.

(** X9.  Closed is final.  From a state whose socket is closed and whose
    status is [offline], whatever happens next, the socket stays closed,
    the status stays [offline], no further frame is handed to the socket
    and the tool list does not change: the component never reconnects. *)
Theorem X9_closed_is_final `{RT : Runtime}
    (s0 : state) (trace : list event) (s : state) :
  readyState (socket s0) = 3 ->
  status s0 = offline ->
  run s0 trace = Some s ->
  readyState (socket s) = 3 /\ status s = offline /\
  sent (socket s) = sent (socket s0) /\ tools s = tools s0.
Proof.
  intros Hrs Hst Hrun.
  apply (run_invariant (closed_for_good s0) s0) with (trace := trace).
  - repeat split; assumption.
  - intros s1 e s2 Hinv Hstep. exact (step_closed_for_good e Hinv Hstep).
  - exact Hrun.
Qed.

(** After the close of the sample session, a click on a tool and a second
    close event leave the frames sent as they are. *)
Lemma X9_witness :
  sent (socket (Sample.or_mounted
                  (run Demo.closed
                     [ClicksTool "process_payment"; TransportCloses])))
  = sent (socket Demo.closed).
Proof.
  refine (proj1 (proj2 (proj2
    (@X9_closed_is_final integer_runtime Demo.closed
       [ClicksTool "process_payment"; TransportCloses] _ _ _ _)))).
  - reflexivity.
  - reflexivity.
  - vm_compute. reflexivity.
Defined.

(** X10.  In every run the handshake goes out at most once: at most one
    [initialize] frame, at most one [tools/list] frame and none without an
    [initialize], and at most one timer pending, which is gone once
    [tools/list] is on the wire. *)
Theorem X10_handshake_goes_out_once `{RT : Runtime}
    (trace : list event) (s : state) :
  run mounted trace = Some s ->
  count_method "initialize" s <= 1 /\
  count_method "tools/list" s + timers s <= count_method "initialize" s.
Proof.
  intro Hrun.
  assert (H : handshake_once s).
  { apply (run_invariant handshake_once mounted) with (trace := trace).
    - unfold handshake_once, count_method. simpl.
      split; [reflexivity | ]. split; [apply Nat.le_0_l | apply Nat.le_refl].
    - intros s1 e s2 Hinv Hstep. exact (step_handshake_once e Hinv Hstep).
    - exact Hrun. }
  destruct H as [_ [H1 H2]]. split; assumption.
Qed.

(** The sample session with its call in flight. *)
Lemma X10_witness :
  count_method "initialize" Sample.in_flight <= 1 /\
  count_method "tools/list" Sample.in_flight + timers Sample.in_flight
  <= count_method "initialize" Sample.in_flight.
Proof.
  apply (@X10_handshake_goes_out_once integer_runtime
           (Sample.ready ++ [ClicksCall]) Sample.in_flight).
  vm_compute. reflexivity.
Defined.

(** X11.  In every run, when the transport closes the status turns
    [offline]; the message that the connection was closed is shown exactly
    when the socket had opened (something was sent on it); on a socket that
    never opened the error cell keeps what it held, so the message of
    [socket.onerror] is not overwritten. *)
Theorem X11_close_message_needs_an_open_socket `{RT : Runtime}
    (trace : list event) (s s' : state) :
  run mounted trace = Some s ->
  step s TransportCloses = Some s' ->
  status s' = offline
  /\ (sent (socket s) = [] -> error s' = error s)
  /\ (sent (socket s) <> [] -> error s' = "Connexion MCP fermée.").
Proof.
  intros Hrun Hstep.
  assert (H : opened_iff_sent s).
  { apply (run_invariant opened_iff_sent mounted) with (trace := trace).
    - unfold opened_iff_sent. simpl. split; [ | discriminate].
      split; [discriminate | intro H; contradiction H; reflexivity].
    - intros s1 e s2 Hinv Hst. exact (step_opened_iff_sent e Hinv Hst).
    - exact Hrun. }
  destruct H as [Hiff _]. simpl in Hstep. injection Hstep as <-.
  unfold after, socket_onclose, bind, gets, setStatus, modify. simpl.
  destruct (isOpen s) eqn:Eo; simpl.
  - split; [reflexivity | ]. split; [ | reflexivity].
    intro Hnil. destruct Hiff as [Hiff _]. contradiction (Hiff eq_refl Hnil).
  - split; [reflexivity | ]. split; [reflexivity | ].
    intro Hne. destruct Hiff as [_ Hiff]. specialize (Hiff Hne). discriminate Hiff.
Qed.

(** The connection is refused: the error of [socket.onerror] stays after
    the close. *)
Lemma X11_witness :
  error (Sample.or_mounted (run mounted [TransportFails; TransportCloses]))
  = "Impossible de se connecter au serveur MCP.".
Proof.
  refine (proj1 (proj2
    (@X11_close_message_needs_an_open_socket integer_runtime
       [TransportFails]
       (mkState offline (JArr []) "" [] ""
          "Impossible de se connecter au serveur MCP." false
          (Some TheSocket) (mkSocket 3 []) false 0)
       (Sample.or_mounted (run mounted [TransportFails; TransportCloses]))
       _ _)) _).
  - vm_compute. reflexivity.
  - vm_compute. reflexivity.
  - reflexivity.
Defined.

(** ** The property list of the entity form *)

Section EntityForm.
Import Ontology.
Variable trim : string -> string.

Lemma includes_true_iff (p : string) (l : list string) :
  includes p l = true <-> In p l.
Proof.
  unfold includes. rewrite existsb_exists. split.
  - intros [x [Hin Heq]]. apply String.eqb_eq in Heq. subst x. exact Hin.
  - intro Hin. exists p. split; [exact Hin | apply String.eqb_refl].
Qed.

Lemma nonempty_true_iff (x : string) : nonempty x = true <-> x <> "".
Proof.
  unfold nonempty. destruct (String.eqb_spec x ""); simpl; split; intro H;
    try discriminate; try reflexivity; try contradiction; assumption.
Qed.

Lemma remove_absent (p : string) (l : list string) :
  ~ In p l -> filter (fun q => negb (String.eqb q p)) l = l.
Proof.
  induction l as [| x rest IH]; simpl; intro Hnot; [reflexivity | ].
  destruct (String.eqb_spec x p) as [E | _]; simpl.
  - contradiction Hnot. left. exact E.
  - rewrite IH; [reflexivity | ]. intro Hin. apply Hnot. right. exact Hin.
Qed.

Lemma handleAddProperty_adds (s : ostate) :
  trim (newProperty (entityForm s)) <> "" ->
  ~ In (trim (newProperty (entityForm s))) (properties (entityForm s)) ->
  handleAddProperty trim s
  = mkOState (entityDialogOpen s) (editingEntity s)
      (mkForm (name (entityForm s)) (description (entityForm s))
         (properties (entityForm s) ++ [trim (newProperty (entityForm s))]) "").
Proof.
  intros Hne Hnot. unfold handleAddProperty. cbv zeta.
  apply nonempty_true_iff in Hne. rewrite Hne.
  destruct (includes (trim (newProperty (entityForm s))) (properties (entityForm s)))
    eqn:E.
  - apply includes_true_iff in E. contradiction.
  - reflexivity.
Qed.

Lemma handleAddProperty_skips (s : ostate) :
  trim (newProperty (entityForm s)) = ""
  \/ In (trim (newProperty (entityForm s))) (properties (entityForm s)) ->
  handleAddProperty trim s = s.
Proof.
  intros [Hblank | Hin]; unfold handleAddProperty; cbv zeta.
  - rewrite Hblank. reflexivity.
  - apply includes_true_iff in Hin. rewrite Hin.
    rewrite Bool.andb_false_r. reflexivity.
Qed.

End EntityForm.

(** X12.  [handleAddProperty] appends the trimmed text of the input field
    to the property list and empties the field, when that text is not
    empty and not yet in the list; otherwise it does nothing at all.  So a
    list without duplicates stays without duplicates, and no empty
    property gets into a list that had none.  The name, the description,
    the entity being edited and the dialog are never touched. *)
Theorem X12_add_property (trim : string -> string) (s : Ontology.ostate) :
  (trim (Ontology.newProperty (Ontology.entityForm s)) <> "" ->
   ~ In (trim (Ontology.newProperty (Ontology.entityForm s)))
        (Ontology.properties (Ontology.entityForm s)) ->
   Ontology.entityForm (Ontology.handleAddProperty trim s)
   = Ontology.mkForm
       (Ontology.name (Ontology.entityForm s))
       (Ontology.description (Ontology.entityForm s))
       (Ontology.properties (Ontology.entityForm s)
        ++ [trim (Ontology.newProperty (Ontology.entityForm s))]) "")
  /\ (trim (Ontology.newProperty (Ontology.entityForm s)) = ""
      \/ In (trim (Ontology.newProperty (Ontology.entityForm s)))
            (Ontology.properties (Ontology.entityForm s)) ->
      Ontology.handleAddProperty trim s = s)
  /\ (NoDup (Ontology.properties (Ontology.entityForm s)) ->
      NoDup (Ontology.properties
               (Ontology.entityForm (Ontology.handleAddProperty trim s))))
  /\ (~ In "" (Ontology.properties (Ontology.entityForm s)) ->
      ~ In "" (Ontology.properties
                 (Ontology.entityForm (Ontology.handleAddProperty trim s))))
  /\ Ontology.name (Ontology.entityForm (Ontology.handleAddProperty trim s))
     = Ontology.name (Ontology.entityForm s)
  /\ Ontology.description (Ontology.entityForm (Ontology.handleAddProperty trim s))
     = Ontology.description (Ontology.entityForm s)
  /\ Ontology.editingEntity (Ontology.handleAddProperty trim s)
     = Ontology.editingEntity s
  /\ Ontology.entityDialogOpen (Ontology.handleAddProperty trim s)
     = Ontology.entityDialogOpen s.
Proof.
  split.
  { intros Hne Hnot. rewrite (handleAddProperty_adds trim s Hne Hnot). reflexivity. }
  split.
  { apply handleAddProperty_skips. }
  destruct (String.eqb_spec (trim (Ontology.newProperty (Ontology.entityForm s))) "")
    as [Hblank | Hne].
  { rewrite (handleAddProperty_skips trim s (or_introl Hblank)).
    repeat split; auto. }
  destruct (in_dec String.string_dec
              (trim (Ontology.newProperty (Ontology.entityForm s)))
              (Ontology.properties (Ontology.entityForm s))) as [Hin | Hnot].
  { rewrite (handleAddProperty_skips trim s (or_intror Hin)).
    repeat split; auto. }
  rewrite (handleAddProperty_adds trim s Hne Hnot). simpl.
  split.
  { intro Hnd. apply NoDup_app.
    - exact Hnd.
    - constructor; [intros [] | constructor].
    - intros x Hx [<- | []]. exact (Hnot Hx). }
  split.
  { intros Hclean Hin. apply in_app_or in Hin. destruct Hin as [Hin | [E | []]].
    - exact (Hclean Hin).
    - exact (Hne E). }
  repeat split.
Qed.

(** X13.  [handleRemoveProperty] removes every occurrence of the property
    and nothing else: the other properties stay, in their order; a list
    without duplicates stays so; removing a property that is not in the
    list changes nothing; and the input field, the name and the
    description are kept. *)
Theorem X13_remove_property (property : string) (s : Ontology.ostate) :
  ~ In property
      (Ontology.properties
         (Ontology.entityForm (Ontology.handleRemoveProperty property s)))
  /\ (forall other, other <> property ->
        (In other (Ontology.properties
                     (Ontology.entityForm (Ontology.handleRemoveProperty property s)))
         <-> In other (Ontology.properties (Ontology.entityForm s))))
  /\ Ontology.properties
       (Ontology.entityForm (Ontology.handleRemoveProperty property s))
     = filter (fun p => negb (String.eqb p property))
         (Ontology.properties (Ontology.entityForm s))
  /\ (NoDup (Ontology.properties (Ontology.entityForm s)) ->
      NoDup (Ontology.properties
               (Ontology.entityForm (Ontology.handleRemoveProperty property s))))
  /\ (~ In property (Ontology.properties (Ontology.entityForm s)) ->
      Ontology.handleRemoveProperty property s = s)
  /\ Ontology.handleRemoveProperty property
       (Ontology.handleRemoveProperty property s)
     = Ontology.handleRemoveProperty property s
  /\ Ontology.newProperty
       (Ontology.entityForm (Ontology.handleRemoveProperty property s))
     = Ontology.newProperty (Ontology.entityForm s).
Proof.
  assert (Hgone : ~ In property
                      (filter (fun p => negb (String.eqb p property))
                         (Ontology.properties (Ontology.entityForm s)))).
  { intro Hin. apply filter_In in Hin. destruct Hin as [_ Hneq].
    rewrite String.eqb_refl in Hneq. discriminate Hneq. }
  split; [exact Hgone | ].
  split.
  { intros other Hne. simpl. rewrite filter_In. split.
    - intros [Hin _]. exact Hin.
    - intro Hin. split; [exact Hin | ].
      destruct (String.eqb_spec other property); [contradiction | reflexivity]. }
  split; [reflexivity | ].
  split.
  { intro Hnd. simpl. apply NoDup_filter. exact Hnd. }
  split.
  { intro Hnot. unfold Ontology.handleRemoveProperty, Ontology.setEntityForm.
    rewrite (remove_absent _ _ Hnot). destruct s as [d e [n de p np]]. reflexivity. }
  split; [ | reflexivity].
  unfold Ontology.handleRemoveProperty, Ontology.setEntityForm. simpl.
  rewrite (remove_absent _ _ Hgone). reflexivity.
Qed.

(** X14.  Adding a property and removing it again gives back the property
    list there was, whenever the addition took place (the trimmed text is
    not empty and was not in the list). *)
Theorem X14_add_then_remove (trim : string -> string) (s : Ontology.ostate) :
  trim (Ontology.newProperty (Ontology.entityForm s)) <> "" ->
  ~ In (trim (Ontology.newProperty (Ontology.entityForm s)))
       (Ontology.properties (Ontology.entityForm s)) ->
  Ontology.properties
    (Ontology.entityForm
       (Ontology.handleRemoveProperty
          (trim (Ontology.newProperty (Ontology.entityForm s)))
          (Ontology.handleAddProperty trim s)))
  = Ontology.properties (Ontology.entityForm s).
Proof.
  intros Hne Hnot.
  rewrite (handleAddProperty_adds trim s Hne Hnot). simpl.
  rewrite filter_app. simpl. rewrite String.eqb_refl. simpl.
  rewrite app_nil_r. apply remove_absent. exact Hnot.
Qed.

(** With a [trim] that cuts nothing: [price] is added to [[name]] and
    removed again. *)
Lemma X14_witness :
  Ontology.properties
    (Ontology.entityForm
       (Ontology.handleRemoveProperty "price"
          (Ontology.handleAddProperty (fun x => x)
             (Ontology.mkOState true None
                (Ontology.mkForm "Product" "" ["name"] "price")))))
  = ["name"].
Proof.
  apply (X14_add_then_remove (fun x => x)
           (Ontology.mkOState true None
              (Ontology.mkForm "Product" "" ["name"] "price"))).
  - discriminate.
  - intros [E | []]. discriminate E.
Defined.
